(** * d3-colorlegend: a shallow embedding of [colorlegend.js]

    The repository is one function, [colorlegend (target, scale, type,
    options)], which measures the HTML element named by [target], derives a
    list of colours from a d3 scale, fits box sizes to the element and appends
    an [svg] legend to it through d3.

    Numbers are JavaScript numbers with rounding left out: exact rationals
    ([Qc]) extended with the two infinities and NaN, so that a division by an
    empty colour list behaves as it does in the source.  Signed zeros are not
    distinguished; every divisor that can be zero in the source
    ([colors.length]) is a non-negative zero.

    d3 and the DOM are outside the repository.  The model keeps what the
    function uses of them: a page is the list of its HTML elements in
    document order, and the [svg] tree is built by [append], [attr], [style]
    and [text].  [d3.select] hands its argument to [querySelector]; the model
    reads two selector forms, [#name] (the element with that id, in a
    document that is not in quirks mode) and [name] (the first element with
    that tag, compared without regard to ASCII case), for names that are
    plain identifiers ([css_name]).  Other selector syntax, and what layout
    makes of the sizes once a node is appended, are outside the model;
    statements that depend on the selection say so in their hypotheses.

    Where rounding decides, the same expressions are also given on binary64
    numbers (the definitions whose names end in [64]). *)

From Stdlib Require Import ZArith QArith Qcanon String Ascii List Bool Lia.
From Stdlib Require PrimFloat.
Import ListNotations.

Local Open Scope string_scope.

(* ================================================================== *)
(** ** Numbers *)

Inductive num : Type :=
| Fin (q : Qc)
| PInf
| NInf
| NaN.

(** Integers as rationals and as numbers. *)
Definition Zc (z : Z) : Qc := Q2Qc (inject_Z z).
Definition of_Z (z : Z) : num := Fin (Zc z).
Definition of_nat (n : nat) : num := of_Z (Z.of_nat n).

(** The infinity whose sign is given by a comparison with zero; [0 * Infinity]
    and [0 / 0] are NaN. *)
Definition inf_of_sign (c : comparison) : num :=
  match c with
  | Gt => PInf
  | Lt => NInf
  | Eq => NaN
  end.

Definition num_neg (x : num) : num :=
  match x with
  | Fin q => Fin (- q)%Qc
  | PInf => NInf
  | NInf => PInf
  | NaN => NaN
  end.

Definition num_add (x y : num) : num :=
  match x, y with
  | NaN, _ | _, NaN => NaN
  | Fin a, Fin b => Fin (a + b)%Qc
  | PInf, NInf | NInf, PInf => NaN
  | PInf, _ | _, PInf => PInf
  | NInf, _ | _, NInf => NInf
  end.

Definition num_sub (x y : num) : num := num_add x (num_neg y).

Definition num_mul (x y : num) : num :=
  match x, y with
  | NaN, _ | _, NaN => NaN
  | Fin a, Fin b => Fin (a * b)%Qc
  | Fin a, PInf | PInf, Fin a => inf_of_sign (a ?= 0)%Qc
  | Fin a, NInf | NInf, Fin a => inf_of_sign (CompOpp (a ?= 0)%Qc)
  | PInf, PInf | NInf, NInf => PInf
  | PInf, NInf | NInf, PInf => NInf
  end.

Definition num_div (x y : num) : num :=
  match x, y with
  | NaN, _ | _, NaN => NaN
  | Fin a, Fin b =>
      if Qc_eq_bool b 0 then inf_of_sign (a ?= 0)%Qc else Fin (a / b)%Qc
  | Fin _, (PInf | NInf) => Fin 0%Qc
  | PInf, Fin b => match (b ?= 0)%Qc with Lt => NInf | _ => PInf end
  | NInf, Fin b => match (b ?= 0)%Qc with Lt => PInf | _ => NInf end
  | (PInf | NInf), (PInf | NInf) => NaN
  end.

(** [x < y]; false as soon as one side is NaN. *)
Definition num_ltb (x y : num) : bool :=
  match x, y with
  | NaN, _ | _, NaN => false
  | Fin a, Fin b => match (a ?= b)%Qc with Lt => true | _ => false end
  | _, NInf => false
  | PInf, _ => false
  | NInf, _ => true
  | Fin _, PInf => true
  end.

Declare Scope num_scope.
Delimit Scope num_scope with num.
Bind Scope num_scope with num.
Infix "+" := num_add : num_scope.
Infix "-" := num_sub : num_scope.
Infix "*" := num_mul : num_scope.
Infix "/" := num_div : num_scope.
Infix "<?" := num_ltb : num_scope.

(* ================================================================== *)
(** ** Values and arrays *)

(** The JavaScript values the function handles: domain entries, colours,
    attribute values and label texts. *)
Inductive value : Type :=
| VUndefined
| VNum (n : num)
| VStr (s : string).

(** [a[i]]: reading before the start or past the end of an array gives
    [undefined]. *)
Definition get (a : list value) (i : Z) : value :=
  if (i <? 0)%Z then VUndefined else nth (Z.to_nat i) a VUndefined.

(** [a.length] *)
Definition len (a : list value) : Z := Z.of_nat (List.length a).

(** A d3 scale as the function uses it: [scale.domain()], [scale.range()] and
    the call [scale(x)]. *)
Record Scale : Type := {
  domain : list value;
  range : list value;
  call : value -> value
}.

(** The [options] argument.  A field that is [None] is absent from the object.
    The box sizes are finite numbers; [linearBoxes] is a loop bound and an
    integer, as the header of the source file documents it. *)
Record Options : Type := {
  boxWidth : option Qc;
  boxHeight : option Qc;
  title : option string;
  fill : option bool;
  linearBoxes : option Z
}.

Definition noOptions : Options :=
  {| boxWidth := None; boxHeight := None; title := None; fill := None;
     linearBoxes := None |}.

(* ================================================================== *)
(** ** SVG nodes and the d3 calls that build them *)

#[warning="-register-all"]
Inductive node : Type :=
| Node (tag : string) (attrs styles : list (string * value)) (text : value)
       (children : list node).

Definition node_tag (n : node) := let 'Node t _ _ _ _ := n in t.
Definition node_attrs (n : node) := let 'Node _ a _ _ _ := n in a.
Definition node_styles (n : node) := let 'Node _ _ s _ _ := n in s.
Definition node_text (n : node) := let 'Node _ _ _ x _ := n in x.
Definition node_children (n : node) := let 'Node _ _ _ _ k := n in k.

Fixpoint lookup (k : string) (l : list (string * value)) : value :=
  match l with
  | [] => VUndefined
  | (k', v) :: l' => if k' =? k then v else lookup k l'
  end.

Fixpoint remove_key (k : string) (l : list (string * value)) :
  list (string * value) :=
  match l with
  | [] => []
  | (k', v) :: l' => if k' =? k then remove_key k l' else (k', v) :: remove_key k l'
  end.

Fixpoint replace_key (k : string) (v : value) (l : list (string * value)) :
  list (string * value) :=
  match l with
  | [] => [(k, v)]
  | (k', v') :: l' => if k' =? k then (k, v) :: l' else (k', v') :: replace_key k v l'
  end.

(** d3 removes the attribute or style property when the value is null or
    undefined and sets it otherwise. *)
Definition set_key (k : string) (v : value) (l : list (string * value)) :
  list (string * value) :=
  match v with
  | VUndefined => remove_key k l
  | _ => replace_key k v l
  end.

Definition create (tag : string) : node := Node tag [] [] VUndefined [].

Definition attr (k : string) (v : value) (n : node) : node :=
  let 'Node t a s x c := n in Node t (set_key k v a) s x c.

Definition style (k : string) (v : value) (n : node) : node :=
  let 'Node t a s x c := n in Node t a (set_key k v s) x c.

(** [selection.text(v)]: an undefined [v] leaves the content empty, which the
    model keeps as [VUndefined]. *)
Definition set_text (v : value) (n : node) : node :=
  let 'Node t a s _ c := n in Node t a s v c.

Definition append (c : node) (n : node) : node :=
  let 'Node t a s x k := n in Node t a s x (k ++ [c]).

Definition append_all (cs : list node) (n : node) : node :=
  fold_left (fun acc c => append c acc) cs n.

Definition get_attr (k : string) (n : node) : value := lookup k (node_attrs n).
Definition get_style (k : string) (n : node) : value := lookup k (node_styles n).

(** Method chaining, [x.f(a).g(b)]. *)
Notation "x |> f" := (f x) (at level 45, left associativity, only parsing).

(* ================================================================== *)
(** ** The document *)

(** An HTML element of the page: its tag, its id (empty when it has none), its
    measured size and the nodes appended to it. *)
Record element : Type := {
  localName : string;
  id : string;
  offsetWidth : Z;
  offsetHeight : Z;
  childNodes : list node
}.

(** The elements of the page in document order. *)
Definition document : Type := list element.

Fixpoint find_index (p : element -> bool) (doc : document) : option nat :=
  match doc with
  | [] => None
  | e :: doc' =>
      if p e then Some O
      else match find_index p doc' with
           | Some k => Some (S k)
           | None => None
           end
  end.

(** [document.getElementById(i)]: the first element with that id, as an index
    into the document; no element is found for the empty string. *)
Definition getElementById (doc : document) (i : string) : option nat :=
  if i =? "" then None else find_index (fun e => id e =? i) doc.

(** ASCII lower case, as selectors are compared with tag names. *)
Definition lower_ascii (c : ascii) : ascii :=
  let n := nat_of_ascii c in
  if (65 <=? n)%nat && (n <=? 90)%nat then ascii_of_nat (n + 32) else c.

Fixpoint to_lower (s : string) : string :=
  match s with
  | EmptyString => EmptyString
  | String c s' => String (lower_ascii c) (to_lower s')
  end.

(** Names that are CSS identifiers without escapes: an ASCII letter or an
    underscore, followed by ASCII letters, digits, hyphens and underscores. *)
Definition is_letter (c : ascii) : bool :=
  let n := nat_of_ascii c in
  ((65 <=? n)%nat && (n <=? 90)%nat) || ((97 <=? n)%nat && (n <=? 122)%nat).

Definition is_name_start (c : ascii) : bool :=
  is_letter c || (nat_of_ascii c =? 95)%nat.

Definition is_name_char (c : ascii) : bool :=
  let n := nat_of_ascii c in
  is_name_start c || ((48 <=? n)%nat && (n <=? 57)%nat) || (n =? 45)%nat.

Fixpoint all_chars (p : ascii -> bool) (s : string) : bool :=
  match s with
  | EmptyString => true
  | String c s' => p c && all_chars p s'
  end.

Definition css_name (s : string) : bool :=
  match s with
  | EmptyString => false
  | String c s' => is_name_start c && all_chars is_name_char s'
  end.

(** Selector matching for the two selector forms the function is documented
    for: [#name] matches the element with that id; a bare [name] is a CSS type
    selector and matches the HTML elements with that tag, the selector being
    put in lower case first. *)
Definition matches (selector : string) (e : element) : bool :=
  match selector with
  | String "#" name => id e =? name
  | _ => localName e =? to_lower selector
  end.

(** [d3.select(selector)]: the first matching element in document order, or
    the empty selection. *)
Definition d3_select (doc : document) (selector : string) : option nat :=
  find_index (matches selector) doc.

Fixpoint update_at (k : nat) (f : element -> element) (doc : document) :
  document :=
  match doc, k with
  | [], _ => []
  | e :: doc', O => f e :: doc'
  | e :: doc', S k' => e :: update_at k' f doc'
  end.

(** [parent.appendChild(c)].  The sizes kept in the record are those measured
    before the call; what they are after layout has run again is not
    modelled. *)
Definition appendChild (c : node) (e : element) : element :=
  {| localName := localName e; id := id e; offsetWidth := offsetWidth e;
     offsetHeight := offsetHeight e; childNodes := childNodes e ++ [c] |}.

(** [selection.append(...)]: on the empty selection nothing is appended. *)
Definition selection_append (doc : document) (sel : option nat) (c : node) :
  document :=
  match sel with
  | Some k => update_at k (appendChild c) doc
  | None => doc
  end.

(* ================================================================== *)
(** ** [colorlegend] *)

Inductive exn : Type :=
| Error (message : string)
| TypeError.

Inductive outcome : Type :=
| Returned
| Threw (e : exn).

(** [target.substring(from, to)] for [from <= to]. *)
Definition js_substring (from to : nat) (s : string) : string :=
  substring from (to - from) s.

(** The [x || d] idiom on each kind of option field: the default replaces a
    missing field and every falsy value of the field's type. *)
Definition or_num (o : option Qc) (d : Qc) : Qc :=
  match o with
  | Some q => if Qc_eq_bool q 0 then d else q
  | None => d
  end.

Definition or_int (o : option Z) (d : Z) : Z :=
  match o with
  | Some z => if (z =? 0)%Z then d else z
  | None => d
  end.

Definition or_null (o : option string) : option string :=
  match o with
  | Some s => if s =? "" then None else Some s
  | None => None
  end.

Definition or_false (o : option bool) : bool :=
  match o with
  | Some b => b
  | None => false
  end.

(** [options || {}] *)
Definition or_empty (options : option Options) : Options :=
  match options with
  | Some o => o
  | None => noOptions
  end.

(** [padding = [2, 4, 10, 4]]: top, right, bottom, left. *)
Definition padding : list num := [of_Z 2; of_Z 4; of_Z 10; of_Z 4].
Definition pad (i : nat) : num := nth i padding NaN.

Definition boxSpacing (type : string) : num :=
  if type =? "ordinal" then of_Z 3 else of_Z 0.

Definition titlePadding (title : option string) : num :=
  match title with
  | Some _ => of_Z 11
  | None => of_Z 0
  end.

Section ColorLegend.

(** ToNumber on a string (the numeric-literal grammar of ECMAScript) is not
    modelled; the function reaches it only through [max - min] on a domain
    that holds strings. *)
Variable StringToNumber : string -> num.

Definition ToNumber (v : value) : num :=
  match v with
  | VUndefined => NaN
  | VNum n => n
  | VStr s => StringToNumber s
  end.

(** The colours, one per box.  The two [for] loops run [i] over
    [0 .. domain.length - 1] and over the integers below [linearBoxes]. *)
Definition colors_of (scale : Scale) (type : string) (linearBoxes : Z) :
  list value :=
  if type =? "quantile" then range scale
  else if type =? "ordinal" then
    map (fun i => get (range scale) (Z.of_nat i))
        (seq 0 (List.length (domain scale)))
  else if type =? "linear" then
    let min := get (domain scale) 0 in
    let max := get (domain scale) (len (domain scale) - 1) in
    map (fun i =>
           call scale
             (VNum (of_nat i * ((ToNumber max - ToNumber min) / of_Z linearBoxes))%num))
        (seq 0 (Z.to_nat linearBoxes))
  else [].

Definition fit_width (fill : bool) (w boxWidth spacing : num) (n : Z) : num :=
  if fill || (w <? (boxWidth + spacing) * of_Z n + pad 1 + pad 3)%num
  then ((w - pad 1 - pad 3 - (spacing * of_Z n)) / of_Z n)%num
  else boxWidth.

Definition fit_height (fill : bool) (h boxHeight titlePad : num) : num :=
  if fill || (h <? boxHeight + pad 0 + pad 2 + titlePad)%num
  then (h - pad 0 - pad 2 - titlePad)%num
  else boxHeight.

(** The value label of box [i]. *)
Definition label (type : string) (domain colors : list value)
  (boxWidth boxHeight spacing : num) (i : Z) : node :=
  create "text"
  |> attr "class" (VStr "colorlegend-labels")
  |> attr "dy" (VStr ".71em")
  |> attr "x"
       (VNum (of_Z i * (boxWidth + spacing)
              + (if negb (type =? "ordinal") then boxWidth / of_Z 2 else of_Z 0))%num)
  |> attr "y" (VNum (boxHeight + of_Z 2)%num)
  |> style "text-anchor" (VStr (if type =? "ordinal" then "start" else "middle"))
  |> style "pointer-events" (VStr "none")
  |> set_text
       (if type =? "ordinal" then get domain i
        else if (i =? 0)%Z then get domain 0
        else if (i =? len colors - 1)%Z then get domain (len domain - 1)
        else VUndefined).

(** The rectangle of box [i]. *)
Definition rect (colors : list value) (boxWidth boxHeight spacing : num)
  (i : Z) : node :=
  create "rect"
  |> attr "x" (VNum (of_Z i * (boxWidth + spacing))%num)
  |> attr "width" (VNum boxWidth)
  |> attr "height" (VNum boxHeight)
  |> style "fill" (get colors i).

(** [legendBoxes]: the data join on a group that was just created has an
    empty update selection, so [enter().append('g')] makes one [g] per entry
    of [colors]; each then receives its label and its rectangle. *)
Definition legendBoxes (type : string) (domain colors : list value)
  (boxWidth boxHeight spacing : num) : list node :=
  map (fun i =>
         create "g"
         |> append (label type domain colors boxWidth boxHeight spacing (Z.of_nat i))
         |> append (rect colors boxWidth boxHeight spacing (Z.of_nat i)))
      (seq 0 (List.length colors)).

Definition title_label (colors : list value) (boxWidth boxHeight titlePad : num)
  (title : string) : node :=
  create "text"
  |> attr "class" (VStr "colorlegend-title")
  |> attr "x" (VNum (of_Z (len colors) * (boxWidth / of_Z 2))%num)
  |> attr "y" (VNum (boxHeight + titlePad)%num)
  |> attr "dy" (VStr ".71em")
  |> style "text-anchor" (VStr "middle")
  |> style "pointer-events" (VStr "none")
  |> set_text (VStr title).

(** The options as the function reads them. *)
Definition requested_boxWidth (options : option Options) : num :=
  Fin (or_num (boxWidth (or_empty options)) (Q2Qc 20)).
Definition requested_boxHeight (options : option Options) : num :=
  Fin (or_num (boxHeight (or_empty options)) (Q2Qc 20)).
Definition title_of (options : option Options) : option string :=
  or_null (title (or_empty options)).
Definition fill_of (options : option Options) : bool :=
  or_false (fill (or_empty options)).
Definition linearBoxes_of (options : option Options) : Z :=
  or_int (linearBoxes (or_empty options)) 9.

(** The body of the function from the options to the [svg] element, given the
    measured width [w] and height [h] of the target. *)
Definition legend_svg (scale : Scale) (type : string)
  (options : option Options) (w h : num) : node :=
  let boxWidth := requested_boxWidth options in
  let boxHeight := requested_boxHeight options in
  let title := title_of options in
  let fill := fill_of options in
  let linearBoxes := linearBoxes_of options in
  let spacing := boxSpacing type in
  let titlePad := titlePadding title in
  let domain := domain scale in
  let colors := colors_of scale type linearBoxes in
  let boxWidth := fit_width fill w boxWidth spacing (len colors) in
  let boxHeight := fit_height fill h boxHeight titlePad in
  let legend :=
    create "g"
    |> attr "class" (VStr "colorlegend")
    |> attr "transform" (VStr "translate(4,2)") (* padding[3], padding[0] *)
    |> style "font-size" (VStr "11px")
    |> style "fill" (VStr "#666")
    |> append_all (legendBoxes type domain colors boxWidth boxHeight spacing) in
  let legend :=
    match title with
    | Some t => legend |> append (title_label colors boxWidth boxHeight titlePad t)
    | None => legend
    end in
  create "svg"
  |> attr "width" (VNum w)
  |> attr "height" (VNum h)
  |> append legend.

Definition scaleTypes : list string := ["linear"; "quantile"; "ordinal"].

(** The whole function, as a transition of the document. *)
Definition colorlegend (target : string) (scale : Scale) (type : string)
  (options : option Options) (doc : document) : document * outcome :=
  let found := existsb (fun t => t =? type) scaleTypes in
  if negb found then
    (doc, Threw (Error ("Scale type, " ++ type ++ ", is not suported.")))
  else
    let htmlElement :=
      if js_substring 0 1 target =? "#"
      then getElementById doc (js_substring 1 (String.length target) target)
      else getElementById doc target in
    (* [htmlElement.offsetWidth] throws a TypeError on null; an index that
       [getElementById] returns always holds an element. *)
    match htmlElement with
    | None => (doc, Threw TypeError)
    | Some k =>
        match nth_error doc k with
        | None => (doc, Threw TypeError)
        | Some e =>
            let w := of_Z (offsetWidth e) in
            let h := of_Z (offsetHeight e) in
            (selection_append doc (d3_select doc target)
               (legend_svg scale type options w h),
             Returned)
        end
    end.

(** Names for the values the function holds once the sizes are fitted. *)
Definition colors_in (scale : Scale) (type : string)
  (options : option Options) : list value :=
  colors_of scale type (linearBoxes_of options).

Definition effective_boxWidth (scale : Scale) (type : string)
  (options : option Options) (w : num) : num :=
  fit_width (fill_of options) w (requested_boxWidth options) (boxSpacing type)
    (len (colors_in scale type options)).

Definition effective_boxHeight (options : option Options) (h : num) : num :=
  fit_height (fill_of options) h (requested_boxHeight options)
    (titlePadding (title_of options)).

End ColorLegend.

(* ================================================================== *)
(** ** Reading a rendered legend *)

Definition no_node : node := create "".

(** A numeric attribute, and the horizontal extent of a rectangle. *)
Definition attr_num (k : string) (n : node) : num :=
  match get_attr k n with
  | VNum x => x
  | _ => NaN
  end.

Definition left_edge (r : node) : num := attr_num "x" r.
Definition right_edge (r : node) : num := (attr_num "x" r + attr_num "width" r)%num.

(** The [g.colorlegend] group of an [svg] element. *)
Definition legend_group (svg : node) : node := nth 0 (node_children svg) no_node.

Definition has_class (c : string) (n : node) : bool :=
  match get_attr "class" n with
  | VStr s => s =? c
  | _ => false
  end.

(** The boxes of a legend are the [g] children of its group, the title labels
    its children of class [colorlegend-title]. *)
Definition boxes_of (svg : node) : list node :=
  filter (fun n => node_tag n =? "g") (node_children (legend_group svg)).

Definition titles_of (svg : node) : list node :=
  filter (has_class "colorlegend-title") (node_children (legend_group svg)).

Definition box (svg : node) (i : nat) : node := nth i (boxes_of svg) no_node.
Definition box_label (g : node) : node := nth 0 (node_children g) no_node.
Definition box_rect (g : node) : node := nth 1 (node_children g) no_node.

(** Record update on the options, one field at a time. *)
Definition with_boxWidth (v : option Qc) (o : Options) : Options :=
  {| boxWidth := v; boxHeight := boxHeight o; title := title o;
     fill := fill o; linearBoxes := linearBoxes o |}.
Definition with_boxHeight (v : option Qc) (o : Options) : Options :=
  {| boxWidth := boxWidth o; boxHeight := v; title := title o;
     fill := fill o; linearBoxes := linearBoxes o |}.
Definition with_title (v : option string) (o : Options) : Options :=
  {| boxWidth := boxWidth o; boxHeight := boxHeight o; title := v;
     fill := fill o; linearBoxes := linearBoxes o |}.
Definition with_fill (v : option bool) (o : Options) : Options :=
  {| boxWidth := boxWidth o; boxHeight := boxHeight o; title := title o;
     fill := v; linearBoxes := linearBoxes o |}.
Definition with_linearBoxes (v : option Z) (o : Options) : Options :=
  {| boxWidth := boxWidth o; boxHeight := boxHeight o; title := title o;
     fill := fill o; linearBoxes := v |}.

(** The element the function measures: [htmlElement], with one leading [#] of
    the target stripped. *)
Definition resolve_target (doc : document) (target : string) : option nat :=
  if js_substring 0 1 target =? "#"
  then getElementById doc (js_substring 1 (String.length target) target)
  else getElementById doc target.

(** A call returned and left element [k] of the page with the children it
    had, followed by [svg]. *)
Definition appends_to (doc : document) (k : nat) (svg : node)
  (result : document * outcome) : Prop :=
  snd result = Returned /\
  exists e e' : element,
    nth_error doc k = Some e /\
    nth_error (fst result) k = Some e' /\
    childNodes e' = (childNodes e ++ [svg])%list.

(** A call returned and left the children of every element as they were. *)
Definition appends_nothing (doc : document) (result : document * outcome) :
  Prop :=
  snd result = Returned /\ map childNodes (fst result) = map childNodes doc.

(** Some node of a tree has the tag [t], whatever the case. *)
Fixpoint has_tag (t : string) (n : node) : bool :=
  let 'Node tag _ _ _ kids := n in
  (to_lower tag =? to_lower t) || existsb (has_tag t) kids.

(** ** The arithmetic of the source on binary64 numbers

    The expressions of lines 93, 99-100 and 153 as JavaScript evaluates
    them, each operation rounded to binary64. *)

Section Binary64.

Import PrimFloat.
Local Open Scope float_scope.

Definition linear_sample64 (i max min linearBoxes : float) : float :=
  i * ((max - min) / linearBoxes).

Definition fill_width64 (w spacing count : float) : float :=
  (w - 4 - 4 - (spacing * count)) / count.

Definition rect_x64 (i boxWidth spacing : float) : float :=
  i * (boxWidth + spacing).

End Binary64.

(** Sample inputs. *)
Definition no_StringToNumber (s : string) : num := NaN.

Definition abc_scale : Scale :=
  {| domain := [VStr "A"; VStr "B"; VStr "C"];
     range := [VStr "red"; VStr "green"; VStr "blue"];
     call := fun _ => VUndefined |}.

Definition one_colour_scale : Scale :=
  {| domain := [VNum (of_Z 1); VNum (of_Z 2)];
     range := [VStr "red"];
     call := fun _ => VStr "red" |}.

Definition grey_scale : Scale :=
  {| domain := [VNum (of_Z 0); VNum (of_Z 100)];
     range := [VStr "white"; VStr "black"];
     call := fun v => v |}.

Definition chart_page : document :=
  [ {| localName := "div"; id := "chart"; offsetWidth := 200;
       offsetHeight := 50; childNodes := [] |} ].

(* ================================================================== *)
(** ** Arithmetic on integers seen as numbers *)

Lemma Zc_add (a b : Z) : Zc (a + b) = (Zc a + Zc b)%Qc.
Proof.
  apply Qc_is_canon. unfold Zc, Qcplus, Q2Qc. cbn [this].
  rewrite !Qred_correct. now rewrite inject_Z_plus.
Qed.

Lemma Zc_0 : Zc 0 = 0%Qc.
Proof. reflexivity. Qed.

Lemma Zc_1 : Zc 1 = 1%Qc.
Proof. reflexivity. Qed.

Lemma Zc_pred (a : Z) : Zc (a - 1) = (Zc a - 1)%Qc.
Proof.
  replace a with ((a - 1) + 1)%Z at 2 by lia.
  rewrite Zc_add, Zc_1. ring.
Qed.

Lemma Zc_inj (a b : Z) : Zc a = Zc b -> a = b.
Proof.
  unfold Zc. intros H. apply Q2Qc_eq_iff in H.
  unfold Qeq in H. simpl in H. lia.
Qed.

Lemma Zc_nonzero (a : Z) : a <> 0%Z -> Zc a <> 0%Qc.
Proof. intros Ha H. apply Ha, Zc_inj. now rewrite Zc_0. Qed.

Lemma Qc_eq_bool_false (a b : Qc) : a <> b -> Qc_eq_bool a b = false.
Proof.
  intros H. unfold Qc_eq_bool. destruct (Qc_eq_dec a b); [contradiction | reflexivity].
Qed.


(* ================================================================== *)
(** ** The shape of a rendered legend *)

Local Open Scope list_scope.

Lemma children_append_all (cs : list node) (n : node) :
  node_children (append_all cs n) = node_children n ++ cs.
Proof.
  unfold append_all. revert n.
  induction cs as [|c cs IH]; intros [t a s x k]; simpl.
  - now rewrite app_nil_r.
  - rewrite IH. simpl. now rewrite <- app_assoc.
Qed.

Lemma children_append (c n : node) :
  node_children (append c n) = node_children n ++ [c].
Proof. now destruct n. Qed.

Lemma filter_all {A} (p : A -> bool) (l : list A) :
  (forall x, In x l -> p x = true) -> filter p l = l.
Proof.
  induction l as [|x l IH]; simpl; intros H; [reflexivity|].
  rewrite (H x) by now left. f_equal. apply IH. intros y Hy. apply H. now right.
Qed.

Lemma filter_none {A} (p : A -> bool) (l : list A) :
  (forall x, In x l -> p x = false) -> filter p l = [].
Proof.
  induction l as [|x l IH]; simpl; intros H; [reflexivity|].
  rewrite (H x) by now left. apply IH. intros y Hy. apply H. now right.
Qed.

Lemma get_style_fill_rect colors bw bh sp i :
  get_style "fill" (rect colors bw bh sp i) = get colors i.
Proof.
  unfold rect, get_style. cbn. destruct (get colors i); reflexivity.
Qed.

Lemma rect_attrs colors bw bh sp i :
  node_attrs (rect colors bw bh sp i) =
  [("x", VNum (of_Z i * (bw + sp))%num); ("width", VNum bw); ("height", VNum bh)].
Proof. reflexivity. Qed.

Section Shape.

Variable StringToNumber : string -> num.
Variables (scale : Scale) (type : string) (options : option Options).
Variables (w h : num).

Let svg := legend_svg StringToNumber scale type options w h.
Let colors := colors_in StringToNumber scale type options.
Let bw := effective_boxWidth StringToNumber scale type options w.
Let bh := effective_boxHeight options h.
Let sp := boxSpacing type.

Lemma legend_children :
  node_children (legend_group svg) =
  legendBoxes type (domain scale) colors bw bh sp
  ++ match title_of options with
     | Some t => [title_label colors bw bh (titlePadding (title_of options)) t]
     | None => []
     end.
Proof.
  subst svg colors bw bh sp.
  unfold legend_svg, legend_group, effective_boxWidth, effective_boxHeight, colors_in.
  destruct (title_of options) as [t|]; cbn -[legendBoxes title_label append_all append];
    rewrite children_append; cbn [node_children app nth];
    rewrite ?children_append, children_append_all; cbn [node_children app].
  - reflexivity.
  - now rewrite app_nil_r.
Qed.

Lemma legendBoxes_tag g :
  In g (legendBoxes type (domain scale) colors bw bh sp) ->
  node_tag g = "g" /\ node_attrs g = [].
Proof.
  unfold legendBoxes. rewrite in_map_iff. intros [i [<- _]]. now split.
Qed.

Lemma boxes_of_svg : boxes_of svg = legendBoxes type (domain scale) colors bw bh sp.
Proof.
  unfold boxes_of. rewrite legend_children, filter_app.
  rewrite filter_all.
  - destruct (title_of options); simpl; now rewrite app_nil_r.
  - intros g Hg. apply legendBoxes_tag in Hg as [-> _]. reflexivity.
Qed.

Lemma titles_of_svg :
  titles_of svg =
  match title_of options with
  | Some t => [title_label colors bw bh (titlePadding (title_of options)) t]
  | None => []
  end.
Proof.
  unfold titles_of. rewrite legend_children, filter_app.
  rewrite filter_none.
  - destruct (title_of options); reflexivity.
  - intros g Hg. apply legendBoxes_tag in Hg as [_ Hg].
    unfold has_class, get_attr. now rewrite Hg.
Qed.

Lemma boxes_count : List.length (boxes_of svg) = List.length colors.
Proof.
  rewrite boxes_of_svg. unfold legendBoxes. now rewrite length_map, length_seq.
Qed.

Lemma box_children (i : nat) :
  (i < List.length colors)%nat ->
  node_children (box svg i) =
  [label type (domain scale) colors bw bh sp (Z.of_nat i);
   rect colors bw bh sp (Z.of_nat i)].
Proof.
  intros Hi. unfold box. rewrite boxes_of_svg. unfold legendBoxes.
  set (f := fun k : nat => _).
  rewrite (nth_indep _ no_node (f O)) by now rewrite length_map, length_seq.
  rewrite map_nth, seq_nth by assumption. reflexivity.
Qed.

Lemma box_label_eq (i : nat) :
  (i < List.length colors)%nat ->
  box_label (box svg i) = label type (domain scale) colors bw bh sp (Z.of_nat i).
Proof. intros Hi. unfold box_label. now rewrite box_children. Qed.

Lemma box_rect_eq (i : nat) :
  (i < List.length colors)%nat ->
  box_rect (box svg i) = rect colors bw bh sp (Z.of_nat i).
Proof. intros Hi. unfold box_rect. now rewrite box_children. Qed.

End Shape.

(* ================================================================== *)
(** ** Target resolution *)

Lemma find_index_sound (p : element -> bool) (doc : document) (k : nat) :
  find_index p doc = Some k ->
  exists e, nth_error doc k = Some e /\ p e = true.
Proof.
  revert k. induction doc as [|e doc IH]; simpl; intros k H; [discriminate|].
  destruct (p e) eqn:Hp.
  - injection H as <-. now exists e.
  - destruct (find_index p doc) as [j|]; [|discriminate].
    injection H as <-. simpl. now apply IH.
Qed.

Lemma substring_all (s : string) : substring 0 (String.length s) s = s.
Proof. induction s as [|c s IH]; simpl; [reflexivity | now rewrite IH]. Qed.

Lemma strip_hash (name : string) :
  js_substring 0 1 ("#" ++ name) = "#"%string /\
  js_substring 1 (String.length ("#" ++ name)) ("#" ++ name) = name.
Proof.
  unfold js_substring. simpl. split.
  - now destruct name.
  - rewrite Nat.sub_0_r. apply substring_all.
Qed.

Lemma found_scaleType (type : string) :
  In type scaleTypes -> existsb (fun t => (t =? type)%string) scaleTypes = true.
Proof.
  intros H. apply existsb_exists. exists type. split; [assumption | apply String.eqb_refl].
Qed.

(** A call on [#name] with a supported type measures the element whose id is
    [name] and appends the legend to that element. *)
Lemma colorlegend_hash_target (stn : string -> num) (name : string)
  (scale : Scale) (type : string) (options : option Options) (doc : document)
  (k : nat) :
  In type scaleTypes ->
  getElementById doc name = Some k ->
  exists e,
    nth_error doc k = Some e /\ id e = name /\
    colorlegend stn ("#" ++ name) scale type options doc =
    (update_at k
       (appendChild
          (legend_svg stn scale type options (of_Z (offsetWidth e))
             (of_Z (offsetHeight e))))
       doc,
     Returned).
Proof.
  intros Hty Hk.
  pose proof Hk as Hk'. unfold getElementById in Hk'.
  destruct (name =? "")%string eqn:Hname; [discriminate|].
  destruct (find_index_sound _ _ _ Hk') as [e [He Hid]].
  exists e. split; [assumption|]. split; [now apply String.eqb_eq|].
  unfold colorlegend. rewrite (found_scaleType _ Hty). cbn [negb].
  destruct (strip_hash name) as [-> ->]. cbn [String.eqb Ascii.eqb Bool.eqb].
  rewrite Hk, He.
  change (d3_select doc ("#" ++ name))
    with (find_index (fun e => (id e =? name)%string) doc).
  now rewrite Hk'.
Qed.

Lemma nth_error_update_at (f : element -> element) (doc : document) (k : nat)
  (e : element) :
  nth_error doc k = Some e -> nth_error (update_at k f doc) k = Some (f e).
Proof.
  revert k. induction doc as [|e0 doc IH]; intros [|k]; simpl; try discriminate.
  - now intros [= ->].
  - apply IH.
Qed.

Lemma nth_error_update_at_other (f : element -> element) (doc : document)
  (k j : nat) :
  j <> k -> nth_error (update_at k f doc) j = nth_error doc j.
Proof.
  revert k j. induction doc as [|e0 doc IH]; intros [|k] [|j] H; simpl;
    try reflexivity; try contradiction.
  apply IH. congruence.
Qed.

Lemma colorlegend_appends (stn : string -> num) (name : string)
  (scale : Scale) (type : string) (options : option Options) (doc : document)
  (k : nat) :
  In type scaleTypes ->
  getElementById doc name = Some k ->
  exists e : element,
    nth_error doc k = Some e /\ id e = name /\
    appends_to doc k
      (legend_svg stn scale type options (of_Z (offsetWidth e))
         (of_Z (offsetHeight e)))
      (colorlegend stn ("#" ++ name) scale type options doc).
Proof.
  intros Hty Hk.
  destruct (colorlegend_hash_target stn name scale type options doc k Hty Hk)
    as [e [He [Hid Hcall]]].
  exists e. split; [exact He|]. split; [exact Hid|].
  unfold appends_to. rewrite Hcall. cbn [fst snd]. split; [reflexivity|].
  exists e, (appendChild
               (legend_svg stn scale type options (of_Z (offsetWidth e))
                  (of_Z (offsetHeight e))) e).
  split; [exact He|]. split; [now apply nth_error_update_at | reflexivity].
Qed.

(* ================================================================== *)
(** ** Validation of the scale type *)

(** C1: for every [type] other than linear, quantile and ordinal the call
    throws the unsupported-scale-type error, and the document it returns is
    the document it was given: nothing is appended before the check fails. *)
Theorem C1_unsupported_type_throws (stn : string -> num) (target : string)
  (scale : Scale) (type : string) (options : option Options) (doc : document) :
  type <> "linear"%string -> type <> "quantile"%string ->
  type <> "ordinal"%string ->
  colorlegend stn target scale type options doc =
  (doc, Threw (Error ("Scale type, " ++ type ++ ", is not suported.")%string)).
Proof.
  intros Hl Hq Ho. unfold colorlegend, scaleTypes. cbn [existsb].
  repeat match goal with
         | H : type <> ?s |- _ =>
             apply not_eq_sym in H; apply String.eqb_neq in H; rewrite H; clear H
         end.
  reflexivity.
Qed.

Lemma C1_witness :
  colorlegend no_StringToNumber "#chart" abc_scale "quantize" None chart_page =
  (chart_page, Threw (Error "Scale type, quantize, is not suported.")).
Proof.
  apply (C1_unsupported_type_throws no_StringToNumber "#chart" abc_scale
           "quantize" None chart_page); discriminate.
Defined.

(* ================================================================== *)
(** ** Where the legend goes *)

(** C8: with the target written as a bare id, the size is read from the
    element that has this id, while [d3.select] reads the same string as a
    tag selector, finds nothing and the legend is appended nowhere. *)
Theorem C8_bare_id_target_not_appended :
  getElementById chart_page "chart" = Some 0%nat /\
  d3_select chart_page "chart" = None /\
  colorlegend no_StringToNumber "chart" abc_scale "ordinal" None chart_page =
  (chart_page, Returned).
Proof. repeat split. Qed.

(* ================================================================== *)
(** ** Colour sampling *)

Lemma get_map_seq (f : nat -> value) (n : nat) (i : Z) :
  (0 <= i < Z.of_nat n)%Z -> get (map f (seq 0 n)) i = f (Z.to_nat i).
Proof.
  intros Hi. unfold get.
  destruct (Z.ltb_spec i 0); [lia|].
  rewrite (nth_indep _ VUndefined (f O)) by (rewrite length_map, length_seq; lia).
  rewrite map_nth, seq_nth by lia. reflexivity.
Qed.

Section LinearSampling.

Import PrimFloat.

(** C2, as the claim states it, fails in two ways.  A negative [linearBoxes]
    is truthy and is kept, the loop does not run, and the colour list is
    empty rather than of length [linearBoxes].  And on binary64 numbers the
    offset of the source, [i * ((max - min) / linearBoxes)], is not the
    claim's [i * (max - min) / linearBoxes]: for the domain [0, 100], nine
    boxes and [i = 3] the two differ. *)
Lemma C2_counterexample :
  let options := Some (with_linearBoxes (Some (-3)%Z) noOptions) in
  linearBoxes_of options = (-3)%Z /\
  len (colors_in no_StringToNumber grey_scale "linear" options) = 0%Z /\
  len (colors_in no_StringToNumber grey_scale "linear" options)
  <> linearBoxes_of options /\
  (linear_sample64 3 100 0 9 =? (3 * (100 - 0) / 9))%float = false.
Proof.
  cbv zeta. split; [reflexivity|]. split; [reflexivity|].
  split; [discriminate|]. vm_compute. reflexivity.
Qed.

End LinearSampling.

(** C2 (amended): a linear call whose [linearBoxes] option is not negative
    has exactly [linearBoxes] colours, nine when the option is unset or 0,
    and colour [i] is the scale applied to
    [i * ((max - min) / linearBoxes)], the quotient taken first; the offset
    is from 0 and not from [min]. *)
Theorem C2_linear_colors (stn : string -> num) (scale : Scale)
  (options : option Options) :
  let lb := linearBoxes_of options in
  let min := ToNumber stn (get (domain scale) 0) in
  let max := ToNumber stn (get (domain scale) (len (domain scale) - 1)) in
  let colors := colors_in stn scale "linear" options in
  (forall n, linearBoxes (or_empty options) = Some n -> (0 <= n)%Z) ->
  len colors = lb /\
  (linearBoxes (or_empty options) = None
   \/ linearBoxes (or_empty options) = Some 0%Z -> len colors = 9%Z) /\
  forall i : Z, (0 <= i < lb)%Z ->
    get colors i = call scale (VNum (of_Z i * ((max - min) / of_Z lb))%num).
Proof.
  intros lb min max colors Hopt.
  assert (Hlb : (0 < lb)%Z).
  { subst lb. unfold linearBoxes_of, or_int.
    destruct (linearBoxes (or_empty options)) as [n|] eqn:E; [|lia].
    specialize (Hopt n eq_refl). destruct (Z.eqb_spec n 0); lia. }
  assert (Hlen : len colors = lb).
  { subst colors. unfold colors_in, colors_of, len. cbn [String.eqb Ascii.eqb Bool.eqb].
    fold lb. rewrite length_map, length_seq. lia. }
  split; [exact Hlen|]. split.
  - intros Hnone. rewrite Hlen. subst lb. unfold linearBoxes_of.
    now destruct Hnone as [-> | ->].
  - intros i Hi. subst colors. unfold colors_in, colors_of.
    cbn [String.eqb Ascii.eqb Bool.eqb]. fold lb.
    rewrite get_map_seq by lia.
    unfold of_nat. rewrite Z2Nat.id by lia. reflexivity.
Qed.

Lemma C2_witness :
  get (colors_in no_StringToNumber grey_scale "linear"
         (Some (with_linearBoxes (Some 4%Z) noOptions))) 3 =
  VNum (of_Z 3 * ((of_Z 100 - of_Z 0) / of_Z 4))%num.
Proof.
  apply (C2_linear_colors no_StringToNumber grey_scale
           (Some (with_linearBoxes (Some 4%Z) noOptions))).
  - intros n [= <-]. lia.
  - cbn. lia.
Defined.

(* ================================================================== *)
(** ** Geometry *)

Lemma boxSpacing_Fin (type : string) :
  boxSpacing type = Fin (if (type =? "ordinal")%string then Zc 3 else Zc 0).
Proof. unfold boxSpacing. now destruct (type =? "ordinal")%string. Qed.

Lemma titlePadding_Fin (t : option string) :
  titlePadding t = Fin (match t with Some _ => Zc 11 | None => Zc 0 end).
Proof. now destruct t. Qed.

(** With at least one box and a finite target width the fitted width is the
    rational the source's formula denotes. *)
Lemma fit_width_Fin (fill : bool) (w bw sp : Qc) (n : Z) :
  n <> 0%Z ->
  fit_width fill (Fin w) (Fin bw) (Fin sp) n =
  Fin (if fill || (Fin w <? Fin ((bw + sp) * Zc n + Zc 4 + Zc 4))%num
       then (w - Zc 4 - Zc 4 - sp * Zc n) / Zc n
       else bw)%Qc.
Proof.
  intros Hn. unfold fit_width, pad, padding, of_Z. cbn [nth].
  cbn [num_add num_mul]. destruct (fill || _).
  - cbn [num_sub num_add num_neg num_mul num_div].
    now rewrite (Qc_eq_bool_false _ _ (Zc_nonzero n Hn)).
  - reflexivity.
Qed.

Lemma fit_height_Fin (fill : bool) (h bh tp : Qc) :
  fit_height fill (Fin h) (Fin bh) (Fin tp) =
  Fin (if fill || (Fin h <? Fin (bh + Zc 2 + Zc 10 + tp))%num
       then h - Zc 2 - Zc 10 - tp
       else bh)%Qc.
Proof.
  unfold fit_height, pad, padding, of_Z. cbn [nth num_add].
  now destruct (fill || _).
Qed.

Lemma colors_ordinal (stn : string -> num) (scale : Scale)
  (options : option Options) :
  colors_in stn scale "ordinal" options =
  map (fun i => get (range scale) (Z.of_nat i)) (seq 0 (List.length (domain scale))).
Proof. reflexivity. Qed.

Lemma colors_quantile (stn : string -> num) (scale : Scale)
  (options : option Options) :
  colors_in stn scale "quantile" options = range scale.
Proof. reflexivity. Qed.

(* ================================================================== *)
(** ** Ordinal legends *)

(** Box [i] is placed at [i * (boxWidth + boxSpacing)], the expression of the
    source, with the width its rectangle has. *)
Lemma box_rect_placement (stn : string -> num) (scale : Scale) (type : string)
  (options : option Options) (w h : num) (i : nat) :
  (i < List.length (colors_in stn scale type options))%nat ->
  left_edge (box_rect (box (legend_svg stn scale type options w h) i))
  = (of_Z (Z.of_nat i)
     * (attr_num "width" (box_rect (box (legend_svg stn scale type options w h) i))
        + boxSpacing type))%num.
Proof. intros Hi. rewrite box_rect_eq by exact Hi. reflexivity. Qed.

(** The legend an ordinal call builds. *)
Lemma ordinal_legend_svg (stn : string -> num) (scale : Scale)
  (options : option Options) (w h : num) :
  let svg := legend_svg stn scale "ordinal" options w h in
  List.length (boxes_of svg) = List.length (domain scale) /\
  forall i : nat, (i < List.length (domain scale))%nat ->
    get_style "fill" (box_rect (box svg i)) = get (range scale) (Z.of_nat i) /\
    node_text (box_label (box svg i)) = get (domain scale) (Z.of_nat i) /\
    get_style "text-anchor" (box_label (box svg i)) = VStr "start" /\
    left_edge (box_rect (box svg i))
    = (of_Z (Z.of_nat i)
       * (attr_num "width" (box_rect (box svg i)) + of_Z 3))%num.
Proof.
  intros svg.
  assert (Hlen : List.length (colors_in stn scale "ordinal" options)
                 = List.length (domain scale)).
  { rewrite colors_ordinal. now rewrite length_map, length_seq. }
  split.
  - subst svg. now rewrite boxes_count.
  - intros i Hi. subst svg. split; [|split; [|split]].
    + rewrite box_rect_eq by (rewrite Hlen; exact Hi).
      rewrite get_style_fill_rect, colors_ordinal, get_map_seq by lia.
      now rewrite Nat2Z.id.
    + now rewrite box_label_eq by (rewrite Hlen; exact Hi).
    + now rewrite box_label_eq by (rewrite Hlen; exact Hi).
    + now rewrite box_rect_placement by (rewrite Hlen; exact Hi).
Qed.

(** C3: an ordinal call on a target written as a bare id renders no box at
    all, although the domain has three entries: the size is read from the
    element with that id, [d3.select] finds no element with that tag, and
    the children of every element stay as they were. *)
Theorem C3_bare_id_renders_no_boxes :
  List.length (domain abc_scale) = 3%nat /\
  resolve_target chart_page "chart" = Some 0%nat /\
  appends_nothing chart_page
    (colorlegend no_StringToNumber "chart" abc_scale "ordinal" None chart_page).
Proof. repeat split. Qed.

(* ================================================================== *)
(** ** Quantile legends and the labels of the two ends *)

Lemma label_text type domain colors bw bh sp i :
  node_text (label type domain colors bw bh sp i) =
  if (type =? "ordinal")%string then get domain i
  else if (i =? 0)%Z then get domain 0
  else if (i =? len colors - 1)%Z then get domain (len domain - 1)
  else VUndefined.
Proof. reflexivity. Qed.

Lemma label_anchor type domain colors bw bh sp i :
  get_style "text-anchor" (label type domain colors bw bh sp i) =
  VStr (if (type =? "ordinal")%string then "start" else "middle").
Proof. reflexivity. Qed.

(** C4, as the claim states it, fails on a range of one colour: the last box
    is also the first, and its label is [domain[0]], not the last domain
    entry. *)
Lemma C4_counterexample :
  let svg := legend_svg no_StringToNumber one_colour_scale "quantile" None
               (of_Z 200) (of_Z 50) in
  let last := (List.length (range one_colour_scale) - 1)%nat in
  node_text (box_label (box svg last)) = VNum (of_Z 1) /\
  get (domain one_colour_scale) (len (domain one_colour_scale) - 1)
  = VNum (of_Z 2) /\
  node_text (box_label (box svg last))
  <> get (domain one_colour_scale) (len (domain one_colour_scale) - 1).
Proof.
  cbv zeta. split; [reflexivity|]. split; [reflexivity|].
  change (VNum (of_Z 1) <> VNum (of_Z 2)).
  intros H. injection H as H. discriminate.
Qed.

(** The legend a quantile call builds. *)
Lemma quantile_legend_svg (stn : string -> num) (scale : Scale)
  (options : option Options) (w h : num) :
  let svg := legend_svg stn scale "quantile" options w h in
  let n := List.length (range scale) in
  colors_in stn scale "quantile" options = range scale /\
  List.length (boxes_of svg) = n /\
  (forall i : nat, (i < n)%nat ->
     get_style "fill" (box_rect (box svg i)) = get (range scale) (Z.of_nat i) /\
     get_style "text-anchor" (box_label (box svg i)) = VStr "middle" /\
     left_edge (box_rect (box svg i))
     = (of_Z (Z.of_nat i)
        * (attr_num "width" (box_rect (box svg i)) + of_Z 0))%num) /\
  ((0 < n)%nat ->
     node_text (box_label (box svg 0)) = get (domain scale) 0) /\
  ((2 <= n)%nat ->
     node_text (box_label (box svg (n - 1)))
     = get (domain scale) (len (domain scale) - 1)) /\
  (forall i : nat, (0 < i < n - 1)%nat ->
     node_text (box_label (box svg i)) = VUndefined).
Proof.
  intros svg n.
  pose proof (colors_quantile stn scale options) as Hc.
  split; [exact Hc|]. split; [|split; [|split; [|split]]].
  - subst svg n. now rewrite boxes_count, Hc.
  - intros i Hi. subst svg n. split; [|split].
    + rewrite box_rect_eq by (rewrite Hc; exact Hi).
      now rewrite get_style_fill_rect, Hc.
    + now rewrite box_label_eq by (rewrite Hc; exact Hi).
    + now rewrite box_rect_placement by (rewrite Hc; exact Hi).
  - intros Hn. subst svg n. rewrite box_label_eq by (rewrite Hc; exact Hn).
    reflexivity.
  - intros Hn. subst svg n. rewrite box_label_eq by (rewrite Hc; lia).
    rewrite label_text, Hc. cbn [String.eqb Ascii.eqb Bool.eqb]. unfold len at 1.
    destruct (Z.eqb_spec (Z.of_nat (List.length (range scale) - 1)) 0); [lia|].
    destruct (Z.eqb_spec (Z.of_nat (List.length (range scale) - 1))
                (Z.of_nat (List.length (range scale)) - 1)); [reflexivity|lia].
  - intros i Hi. subst svg n. rewrite box_label_eq by (rewrite Hc; lia).
    rewrite label_text, Hc. cbn [String.eqb Ascii.eqb Bool.eqb]. unfold len at 1.
    destruct (Z.eqb_spec (Z.of_nat i) 0); [lia|].
    destruct (Z.eqb_spec (Z.of_nat i) (Z.of_nat (List.length (range scale)) - 1));
      [lia|reflexivity].
Qed.

(** C4 (amended): a quantile call on a target [#name], where [name] is a
    plain identifier and the id of an element of the page, returns and
    appends to that element an [svg] with one box per range entry, the
    colours being the range itself: box [i] is filled with [range[i]] and
    its rectangle is placed at [i * (boxWidth + 0)]; the first box is
    labelled [domain[0]]; the last box is labelled with the last domain entry
    when the range has at least two entries; every box in between has no
    label text; the labels are anchored at "middle". *)
Theorem C4_quantile_legend (stn : string -> num) (name : string)
  (scale : Scale) (options : option Options) (doc : document) (k : nat) :
  css_name name = true ->
  getElementById doc name = Some k ->
  exists svg : node,
    appends_to doc k svg
      (colorlegend stn ("#" ++ name) scale "quantile" options doc) /\
    let n := List.length (range scale) in
    colors_in stn scale "quantile" options = range scale /\
    List.length (boxes_of svg) = n /\
    (forall i : nat, (i < n)%nat ->
       get_style "fill" (box_rect (box svg i)) = get (range scale) (Z.of_nat i) /\
       get_style "text-anchor" (box_label (box svg i)) = VStr "middle" /\
       left_edge (box_rect (box svg i))
       = (of_Z (Z.of_nat i)
          * (attr_num "width" (box_rect (box svg i)) + of_Z 0))%num) /\
    ((0 < n)%nat ->
       node_text (box_label (box svg 0)) = get (domain scale) 0) /\
    ((2 <= n)%nat ->
       node_text (box_label (box svg (n - 1)))
       = get (domain scale) (len (domain scale) - 1)) /\
    (forall i : nat, (0 < i < n - 1)%nat ->
       node_text (box_label (box svg i)) = VUndefined).
Proof.
  intros _ Hk.
  destruct (colorlegend_appends stn name scale "quantile" options doc k)
    as [e [_ [_ Happ]]]; [simpl; tauto | exact Hk |].
  eexists. split; [exact Happ|].
  apply quantile_legend_svg.
Qed.

Lemma C4_witness :
  exists svg : node,
    appends_to chart_page 0 svg
      (colorlegend no_StringToNumber "#chart" abc_scale "quantile" None
         chart_page) /\
    node_text (box_label (box svg 0)) = VStr "A" /\
    node_text (box_label (box svg 2)) = VStr "C" /\
    node_text (box_label (box svg 1)) = VUndefined.
Proof.
  destruct (C4_quantile_legend no_StringToNumber "chart" abc_scale None
              chart_page 0 eq_refl eq_refl)
    as [svg [Happ [_ [_ [_ [Hfirst [Hlast Hmid]]]]]]].
  exists svg. split; [exact Happ|]. split; [|split].
  - apply Hfirst. simpl. lia.
  - apply Hlast. simpl. lia.
  - apply (Hmid 1%nat). simpl. lia.
Defined.

(** C10: a linear or quantile call that yields exactly one box labels it
    [domain[0]]: the test for the first index comes before the test for the
    last. *)
Theorem C10_single_box_label (stn : string -> num) (scale : Scale)
  (type : string) (options : option Options) (w h : num) :
  type <> "ordinal"%string ->
  List.length (colors_in stn scale type options) = 1%nat ->
  node_text (box_label (box (legend_svg stn scale type options w h) 0))
  = get (domain scale) 0.
Proof.
  intros Hty Hlen. rewrite box_label_eq by (rewrite Hlen; lia).
  rewrite label_text. apply String.eqb_neq in Hty. now rewrite Hty.
Qed.

Lemma C10_witness :
  node_text
    (box_label
       (box (legend_svg no_StringToNumber one_colour_scale "quantile" None
               (of_Z 200) (of_Z 50)) 0))
  = get (domain one_colour_scale) 0.
Proof.
  apply (C10_single_box_label no_StringToNumber one_colour_scale "quantile"
           None (of_Z 200) (of_Z 50)).
  - discriminate.
  - reflexivity.
Defined.

(* ================================================================== *)
(** ** Fitting the boxes to the target *)

Lemma rect_width colors bw bh sp i :
  get_attr "width" (rect colors bw bh sp i) = VNum bw.
Proof. reflexivity. Qed.

Lemma rect_height colors bw bh sp i :
  get_attr "height" (rect colors bw bh sp i) = VNum bh.
Proof. reflexivity. Qed.

Lemma rect_left_edge colors bw bh sp i :
  left_edge (rect colors bw bh sp i) = (of_Z i * (bw + sp))%num.
Proof. reflexivity. Qed.

(** C5: the width of every rendered box is
    [(w - left - right - spacing * count) / count] when [fill] holds or
    [(boxWidth + spacing) * count + right + left] exceeds the target width,
    and the requested [boxWidth] otherwise; independently its height is
    [h - top - bottom - titlePad] when [fill] holds or
    [boxHeight + top + bottom + titlePad] exceeds the target height, and the
    requested [boxHeight] otherwise; top, right, bottom, left = 2, 4, 10, 4. *)
Theorem C5_effective_box_size (stn : string -> num) (scale : Scale)
  (type : string) (options : option Options) (w h : num) :
  let svg := legend_svg stn scale type options w h in
  let colors := colors_in stn scale type options in
  let count := of_Z (len colors) in
  let spacing := boxSpacing type in
  let titlePad := titlePadding (title_of options) in
  let top := of_Z 2 in
  let right := of_Z 4 in
  let bottom := of_Z 10 in
  let left := of_Z 4 in
  let width :=
    (if fill_of options
        || (w <? (requested_boxWidth options + spacing) * count + right + left)
     then (w - left - right - spacing * count) / count
     else requested_boxWidth options)%num in
  let height :=
    (if fill_of options
        || (h <? requested_boxHeight options + top + bottom + titlePad)
     then h - top - bottom - titlePad
     else requested_boxHeight options)%num in
  padding = [top; right; bottom; left] /\
  effective_boxWidth stn scale type options w = width /\
  effective_boxHeight options h = height /\
  forall i : nat, (i < List.length colors)%nat ->
    get_attr "width" (box_rect (box svg i)) = VNum width /\
    get_attr "height" (box_rect (box svg i)) = VNum height.
Proof.
  intros svg colors count spacing titlePad top right bottom left width height.
  split; [reflexivity|]. split; [reflexivity|]. split; [reflexivity|].
  intros i Hi. subst svg. rewrite box_rect_eq by exact Hi.
  rewrite rect_width, rect_height. split; reflexivity.
Qed.

Lemma C5_witness :
  let svg := legend_svg no_StringToNumber abc_scale "ordinal" None
               (of_Z 50) (of_Z 20) in
  get_attr "width" (box_rect (box svg 1))
  = VNum ((of_Z 50 - of_Z 4 - of_Z 4 - of_Z 3 * of_Z 3) / of_Z 3)%num /\
  get_attr "height" (box_rect (box svg 1))
  = VNum (of_Z 20 - of_Z 2 - of_Z 10 - of_Z 0)%num.
Proof.
  pose proof (C5_effective_box_size no_StringToNumber abc_scale "ordinal" None
                (of_Z 50) (of_Z 20)) as [_ [_ [_ Hbox]]].
  apply (Hbox 1%nat). simpl. lia.
Defined.

(** C6, as the claim states it, fails on an ordinal legend: with [fill] on a
    target 101 wide, three boxes of width 28 with two gaps of 3 span 90
    pixels, and the claim asks for 101 - 4 - 4 = 93. *)
Lemma C6_counterexample :
  let svg := legend_svg no_StringToNumber abc_scale "ordinal"
               (Some (with_fill (Some true) noOptions)) (of_Z 101) (of_Z 40) in
  (right_edge (box_rect (box svg 2)) - left_edge (box_rect (box svg 0)))%num
  = of_Z 90 /\
  (of_Z 101 - of_Z 4 - of_Z 4)%num = of_Z 93 /\
  (right_edge (box_rect (box svg 2)) - left_edge (box_rect (box svg 0)))%num
  <> (of_Z 101 - of_Z 4 - of_Z 4)%num.
Proof.
  cbv zeta.
  assert (H90 : (right_edge (box_rect (box (legend_svg no_StringToNumber
             abc_scale "ordinal" (Some (with_fill (Some true) noOptions))
             (of_Z 101) (of_Z 40)) 2))
           - left_edge (box_rect (box (legend_svg no_StringToNumber
             abc_scale "ordinal" (Some (with_fill (Some true) noOptions))
             (of_Z 101) (of_Z 40)) 0)))%num = of_Z 90).
  { vm_compute. apply (f_equal Fin), Qc_is_canon. reflexivity. }
  assert (H93 : (of_Z 101 - of_Z 4 - of_Z 4)%num = of_Z 93).
  { vm_compute. apply (f_equal Fin), Qc_is_canon. reflexivity. }
  split; [exact H90|]. split; [exact H93|].
  rewrite H90, H93. intros H. injection H as H. discriminate.
Qed.

Lemma rect_span (colors : list value) (q s : Qc) (bh : num) (n : nat) :
  (0 < n)%nat ->
  (right_edge (rect colors (Fin q) bh (Fin s) (Z.of_nat (n - 1)))
   - left_edge (rect colors (Fin q) bh (Fin s) (Z.of_nat 0)))%num
  = Fin (Zc (Z.of_nat n) * (q + s) - s)%Qc.
Proof.
  intros Hn. unfold left_edge, right_edge, attr_num, get_attr. rewrite !rect_attrs.
  cbn [lookup String.eqb Ascii.eqb Bool.eqb]. unfold of_Z.
  cbn [num_add num_mul num_sub num_neg].
  replace (Z.of_nat (n - 1)) with (Z.of_nat n - 1)%Z by lia.
  rewrite Zc_pred. change (Z.of_nat 0) with 0%Z. rewrite Zc_0. f_equal. ring.
Qed.

Lemma Zc_mul (a b : Z) : Zc (a * b) = (Zc a * Zc b)%Qc.
Proof.
  apply Qc_is_canon. unfold Zc, Qcmult, Q2Qc. cbn [this].
  rewrite !Qred_correct. now rewrite inject_Z_mult.
Qed.

Lemma Zc_opp (a : Z) : Zc (- a) = (- Zc a)%Qc.
Proof.
  apply Qc_is_canon. unfold Zc, Qcopp, Q2Qc. cbn [this].
  rewrite !Qred_correct. now rewrite inject_Z_opp.
Qed.

Lemma Zc_sub (a b : Z) : Zc (a - b) = (Zc a - Zc b)%Qc.
Proof.
  replace (a - b)%Z with (a + - b)%Z by lia.
  now rewrite Zc_add, Zc_opp.
Qed.

Section FillRounding.

Import PrimFloat.

(** On binary64 numbers the boxes of a filled legend need not span
    [w - 4 - 4 - spacing] to the last bit: seven colours without spacing on
    a target 200 wide end short of 192. *)
Lemma fill_span_rounds64 :
  let boxWidth := fill_width64 200 0 7 in
  ((rect_x64 6 boxWidth 0 + boxWidth - rect_x64 0 boxWidth 0 =? 192)%float
   = false) /\
  ((rect_x64 6 boxWidth 0 + boxWidth - rect_x64 0 boxWidth 0 <? 192)%float
   = true).
Proof. vm_compute. split; reflexivity. Qed.

End FillRounding.

(** C6 (amended): with [fill] set and at least one box, on a target of
    integer size, every rectangle has the width
    [(w - 4 - 4 - spacing * count) / count] and the height
    [h - 2 - 10 - titlePad], and box [i] is placed at
    [i * (boxWidth + spacing)]: what is fitted to [w - 4 - 4] is [count]
    slots of a box and its spacing, not the boxes alone.  When [count]
    divides [w - 4 - 4 - spacing * count], so that the box width is a whole
    number and no operation rounds, the boxes span exactly
    [w - 4 - 4 - spacing] from the left edge of the first to the right edge
    of the last: all of [w - 4 - 4] for linear and quantile legends, 3 less
    for ordinal ones. *)
Theorem C6_fill_span (stn : string -> num) (scale : Scale) (type : string)
  (options : option Options) (w h : Z) :
  let svg := legend_svg stn scale type options (of_Z w) (of_Z h) in
  let n := List.length (colors_in stn scale type options) in
  let spacing : Z := if (type =? "ordinal")%string then 3%Z else 0%Z in
  let boxWidth :=
    ((of_Z w - of_Z 4 - of_Z 4 - of_Z spacing * of_Z (Z.of_nat n))
     / of_Z (Z.of_nat n))%num in
  fill_of options = true ->
  (0 < n)%nat ->
  (forall i : nat, (i < n)%nat ->
     get_attr "width" (box_rect (box svg i)) = VNum boxWidth /\
     left_edge (box_rect (box svg i))
     = (of_Z (Z.of_nat i) * (boxWidth + of_Z spacing))%num /\
     get_attr "height" (box_rect (box svg i))
     = VNum (of_Z h - of_Z 2 - of_Z 10 - titlePadding (title_of options))%num) /\
  (forall m : Z,
     (w - 4 - 4 - spacing * Z.of_nat n = m * Z.of_nat n)%Z ->
     boxWidth = of_Z m /\
     (right_edge (box_rect (box svg (n - 1)))
      - left_edge (box_rect (box svg 0)))%num
     = of_Z (w - 4 - 4 - spacing)).
Proof.
  intros svg n spacing boxWidth Hfill Hn.
  assert (Hnz : Zc (Z.of_nat n) <> 0%Qc) by (apply Zc_nonzero; lia).
  assert (Hsp : boxSpacing type = of_Z spacing).
  { unfold boxSpacing. subst spacing. now destruct (type =? "ordinal")%string. }
  assert (Hbw : effective_boxWidth stn scale type options (of_Z w) = boxWidth).
  { unfold effective_boxWidth, fit_width. rewrite Hfill, Hsp. reflexivity. }
  split.
  - intros i Hi. subst svg. rewrite box_rect_eq by exact Hi.
    rewrite rect_width, rect_left_edge, rect_height, Hbw, Hsp.
    split; [reflexivity|]. split; [reflexivity|].
    unfold effective_boxHeight, fit_height. now rewrite Hfill.
  - intros m Hm.
    assert (He : (Zc w - Zc 4 - Zc 4 - Zc spacing * Zc (Z.of_nat n)
                  = Zc m * Zc (Z.of_nat n))%Qc).
    { rewrite <- Zc_mul, <- !Zc_sub, <- Zc_mul. now rewrite Hm. }
    assert (Hq : boxWidth = of_Z m).
    { subst boxWidth. unfold of_Z. cbn [num_sub num_add num_neg num_mul num_div].
      rewrite (Qc_eq_bool_false _ _ Hnz). f_equal.
      change (Zc w + - Zc 4 + - Zc 4 + - (Zc spacing * Zc (Z.of_nat n)))%Qc
        with (Zc w - Zc 4 - Zc 4 - Zc spacing * Zc (Z.of_nat n))%Qc.
      rewrite He. now field. }
    split; [exact Hq|].
    subst svg. rewrite !box_rect_eq by lia.
    rewrite Hbw, Hq, Hsp. unfold of_Z at 1 2 3 4.
    rewrite rect_span by exact Hn.
    unfold of_Z. f_equal. rewrite !Zc_sub.
    assert (Hw : (Zc w = Zc m * Zc (Z.of_nat n) + Zc 4 + Zc 4
                         + Zc spacing * Zc (Z.of_nat n))%Qc).
    { rewrite <- He. ring. }
    rewrite Hw. ring.
Qed.

Lemma C6_witness :
  let svg := legend_svg no_StringToNumber abc_scale "ordinal"
               (Some (with_fill (Some true) noOptions)) (of_Z 101) (of_Z 40) in
  ((of_Z 101 - of_Z 4 - of_Z 4 - of_Z 3 * of_Z 3) / of_Z 3)%num = of_Z 28 /\
  (right_edge (box_rect (box svg 2)) - left_edge (box_rect (box svg 0)))%num
  = of_Z (101 - 4 - 4 - 3).
Proof.
  pose proof (C6_fill_span no_StringToNumber abc_scale "ordinal"
                (Some (with_fill (Some true) noOptions)) 101 40 eq_refl)
    as H.
  destruct H as [_ H]; [simpl; lia|].
  apply (H 28%Z). reflexivity.
Defined.

(* ================================================================== *)
(** ** The title *)

Lemma title_of_set (options : option Options) (t : string) :
  title (or_empty options) = Some t -> t <> ""%string ->
  title_of options = Some t.
Proof.
  intros Ht Hne. unfold title_of, or_null. rewrite Ht.
  apply String.eqb_neq in Hne. now rewrite Hne.
Qed.

Lemma title_of_unset (options : option Options) :
  title (or_empty options) = None \/ title (or_empty options) = Some ""%string ->
  title_of options = None.
Proof. unfold title_of, or_null. now intros [-> | ->]. Qed.

Lemma title_label_x colors bw bh tp t :
  get_attr "x" (title_label colors bw bh tp t)
  = VNum (of_Z (len colors) * (bw / of_Z 2))%num.
Proof. reflexivity. Qed.

(** The title label of a legend, and its absence. *)
Lemma title_label_of_legend (stn : string -> num) (scale : Scale)
  (type : string) (options : option Options) (w h : num) :
  let svg := legend_svg stn scale type options w h in
  let colors := colors_in stn scale type options in
  let boxWidth := effective_boxWidth stn scale type options w in
  let boxHeight := effective_boxHeight options h in
  (forall t : string,
     title (or_empty options) = Some t -> t <> ""%string ->
     titlePadding (title_of options) = of_Z 11 /\
     exists tl : node,
       node_children (legend_group svg) = boxes_of svg ++ [tl] /\
       titles_of svg = [tl] /\
       node_tag tl = "text"%string /\
       get_attr "x" tl = VNum (of_Z (len colors) * (boxWidth / of_Z 2))%num /\
       get_attr "y" tl = VNum (boxHeight + of_Z 11)%num /\
       get_style "text-anchor" tl = VStr "middle" /\
       get_style "pointer-events" tl = VStr "none" /\
       node_text tl = VStr t) /\
  (title (or_empty options) = None \/ title (or_empty options) = Some ""%string ->
     titlePadding (title_of options) = of_Z 0 /\
     node_children (legend_group svg) = boxes_of svg /\
     titles_of svg = []).
Proof.
  intros svg colors boxWidth boxHeight. split.
  - intros t Ht Hne. pose proof (title_of_set options t Ht Hne) as Hset.
    subst svg boxHeight.
    rewrite legend_children, titles_of_svg, boxes_of_svg.
    unfold effective_boxHeight. rewrite Hset.
    split; [reflexivity|].
    eexists. split; [reflexivity|]. split; [reflexivity|].
    repeat split; reflexivity.
  - intros Hno. pose proof (title_of_unset options Hno) as Hunset.
    subst svg.
    rewrite legend_children, titles_of_svg, boxes_of_svg, Hunset.
    split; [reflexivity|].
    split; [apply app_nil_r | reflexivity].
Qed.

(** C7: a call with a title on a target written as a bare id emits no title
    label: the title is set, the size is read from the element with that
    id, [d3.select] finds no element with that tag, and the children of
    every element stay as they were. *)
Theorem C7_bare_id_emits_no_title :
  let options := Some (with_title (Some "Population"%string) noOptions) in
  title_of options = Some "Population"%string /\
  resolve_target chart_page "chart" = Some 0%nat /\
  appends_nothing chart_page
    (colorlegend no_StringToNumber "chart" abc_scale "ordinal" options
       chart_page).
Proof. repeat split. Qed.

(* ================================================================== *)
(** ** Options and their defaults *)

(** The function reads its options only through the five defaulted values. *)
Lemma colorlegend_options_ext (stn : string -> num) (target : string)
  (scale : Scale) (type : string) (o1 o2 : option Options) (doc : document) :
  requested_boxWidth o1 = requested_boxWidth o2 ->
  requested_boxHeight o1 = requested_boxHeight o2 ->
  title_of o1 = title_of o2 ->
  fill_of o1 = fill_of o2 ->
  linearBoxes_of o1 = linearBoxes_of o2 ->
  colorlegend stn target scale type o1 doc
  = colorlegend stn target scale type o2 doc.
Proof.
  intros Hw Hh Ht Hf Hl. unfold colorlegend, legend_svg.
  now rewrite Hw, Hh, Ht, Hf, Hl.
Qed.

(** C9: without options, or with a field left out, the defaults are
    boxWidth 20, boxHeight 20, no title, fill false and linearBoxes 9; and a
    falsy value in a field (0, the empty string, false) gives the same call
    as leaving the field out. *)
Theorem C9_defaults_and_falsy (stn : string -> num) (target : string)
  (scale : Scale) (type : string) (doc : document) (o : Options) :
  (requested_boxWidth None = of_Z 20 /\
   requested_boxHeight None = of_Z 20 /\
   title_of None = None /\
   fill_of None = false /\
   linearBoxes_of None = 9%Z) /\
  (requested_boxWidth (Some (with_boxWidth None o)) = of_Z 20 /\
   requested_boxHeight (Some (with_boxHeight None o)) = of_Z 20 /\
   title_of (Some (with_title None o)) = None /\
   fill_of (Some (with_fill None o)) = false /\
   linearBoxes_of (Some (with_linearBoxes None o)) = 9%Z) /\
  colorlegend stn target scale type (Some (with_boxWidth (Some (Zc 0)) o)) doc
  = colorlegend stn target scale type (Some (with_boxWidth None o)) doc /\
  colorlegend stn target scale type (Some (with_boxHeight (Some (Zc 0)) o)) doc
  = colorlegend stn target scale type (Some (with_boxHeight None o)) doc /\
  colorlegend stn target scale type (Some (with_title (Some ""%string) o)) doc
  = colorlegend stn target scale type (Some (with_title None o)) doc /\
  colorlegend stn target scale type (Some (with_fill (Some false) o)) doc
  = colorlegend stn target scale type (Some (with_fill None o)) doc /\
  colorlegend stn target scale type (Some (with_linearBoxes (Some 0%Z) o)) doc
  = colorlegend stn target scale type (Some (with_linearBoxes None o)) doc.
Proof.
  split; [repeat split|]. split; [repeat split|].
  repeat split; apply colorlegend_options_ext; reflexivity.
Qed.

(* ================================================================== *)
(** ** Outcomes of a call *)

Lemma found_iff (type : string) :
  existsb (fun t => (t =? type)%string) scaleTypes = true <-> In type scaleTypes.
Proof.
  split; [|apply found_scaleType].
  intros H. apply existsb_exists in H as [t [Hin Heq]].
  apply String.eqb_eq in Heq. now subst.
Qed.

Lemma resolve_target_sound (doc : document) (target : string) (k : nat) :
  resolve_target doc target = Some k -> exists e, nth_error doc k = Some e.
Proof.
  unfold resolve_target, getElementById. intros H.
  destruct (js_substring 0 1 target =? "#")%string;
    match type of H with
    | (if ?c then _ else _) = _ => destruct c; [discriminate|]
    end;
    apply find_index_sound in H as [e [He _]]; now exists e.
Qed.

(** X1: a call throws the unsupported-type [Error] exactly when the type is
    not one of the three, and then leaves the document as it was, whatever
    the target; with a supported type and a target that names no element it
    throws a TypeError and leaves the document as it was; with a supported
    type and a target that is a plain identifier, with or without a leading
    [#], and names an element, it returns. *)
Theorem X1_outcome (stn : string -> num) (target : string) (scale : Scale)
  (type : string) (options : option Options) (doc : document) :
  let r := colorlegend stn target scale type options doc in
  (snd r = Threw (Error ("Scale type, " ++ type ++ ", is not suported.")%string)
   <-> ~ In type scaleTypes) /\
  (~ In type scaleTypes -> fst r = doc) /\
  (In type scaleTypes -> resolve_target doc target = None ->
   r = (doc, Threw TypeError)) /\
  (In type scaleTypes -> resolve_target doc target <> None ->
   (css_name target = true
    \/ exists name : string, target = ("#" ++ name)%string /\ css_name name = true) ->
   snd r = Returned).
Proof.
  intros r. subst r. unfold colorlegend. fold (resolve_target doc target).
  pose proof (found_iff type) as Hf.
  destruct (existsb (fun t => (t =? type)%string) scaleTypes) eqn:Efound;
    cbn [negb].
  - assert (Hin : In type scaleTypes) by now apply Hf.
    destruct (resolve_target doc target) as [k|] eqn:Eres.
    + destruct (resolve_target_sound _ _ _ Eres) as [e He]. rewrite He.
      cbn [fst snd]. repeat split; try discriminate; try tauto.
    + cbn [fst snd]. repeat split; try discriminate; try tauto.
  - assert (Hnin : ~ In type scaleTypes).
    { intros H. apply Hf in H. discriminate. }
    cbn [fst snd]. repeat split; try discriminate; try tauto.
Qed.

Lemma X1_witness :
  colorlegend no_StringToNumber "#nothing" abc_scale "linear" None chart_page
  = (chart_page, Threw TypeError).
Proof.
  apply (X1_outcome no_StringToNumber "#nothing" abc_scale "linear" None
           chart_page).
  - simpl. tauto.
  - reflexivity.
Defined.

(* ================================================================== *)
(** ** What a call does to the document *)

Lemma append_all_Node (cs : list node) t a st x k :
  append_all cs (Node t a st x k) = Node t a st x (k ++ cs).
Proof.
  unfold append_all. revert k.
  induction cs as [|c cs IH]; intros k; simpl.
  - now rewrite app_nil_r.
  - rewrite IH. now rewrite <- app_assoc.
Qed.

(** The two outer elements of every legend. *)
Lemma legend_svg_shape (stn : string -> num) (scale : Scale) (type : string)
  (options : option Options) (w h : num) :
  exists kids : list node,
    legend_svg stn scale type options w h
    = Node "svg" [("width"%string, VNum w); ("height"%string, VNum h)] []
        VUndefined
        [Node "g"
           [("class"%string, VStr "colorlegend");
            ("transform"%string, VStr "translate(4,2)")]
           [("font-size"%string, VStr "11px"); ("fill"%string, VStr "#666")]
           VUndefined kids].
Proof.
  unfold legend_svg.
  destruct (title_of options);
    cbn -[legendBoxes title_label append_all fit_width fit_height colors_of];
    rewrite append_all_Node; eexists; reflexivity.
Qed.

(** X3: on a target [#name], where [name] is a plain identifier and the id
    of an element of the page, a call with a supported type returns, appends
    one node after the children of that element and leaves the children of
    every other element as they were; the node is an [svg] whose width and
    height are the size measured on that element, and its only child is the
    [g] of class [colorlegend], translated by (4,2), with font size 11px and
    fill #666. *)
Theorem X3_hash_target_appends_svg (stn : string -> num) (name : string)
  (scale : Scale) (type : string) (options : option Options) (doc : document)
  (k : nat) :
  css_name name = true ->
  In type scaleTypes ->
  getElementById doc name = Some k ->
  let r := colorlegend stn ("#" ++ name) scale type options doc in
  exists (e : element) (svg : node),
    nth_error doc k = Some e /\ id e = name /\
    appends_to doc k svg r /\
    (forall j : nat, j <> k ->
       option_map childNodes (nth_error (fst r) j)
       = option_map childNodes (nth_error doc j)) /\
    node_tag svg = "svg"%string /\
    get_attr "width" svg = VNum (of_Z (offsetWidth e)) /\
    get_attr "height" svg = VNum (of_Z (offsetHeight e)) /\
    node_children svg = [legend_group svg] /\
    node_tag (legend_group svg) = "g"%string /\
    get_attr "class" (legend_group svg) = VStr "colorlegend" /\
    get_attr "transform" (legend_group svg) = VStr "translate(4,2)" /\
    get_style "font-size" (legend_group svg) = VStr "11px" /\
    get_style "fill" (legend_group svg) = VStr "#666".
Proof.
  intros _ Hty Hk r. subst r.
  destruct (colorlegend_appends stn name scale type options doc k Hty Hk)
    as [e [He [Hid Happ]]].
  destruct (colorlegend_hash_target stn name scale type options doc k Hty Hk)
    as [e0 [He0 [_ Hcall]]].
  rewrite He in He0. injection He0 as <-.
  exists e, (legend_svg stn scale type options (of_Z (offsetWidth e))
               (of_Z (offsetHeight e))).
  split; [exact He|]. split; [exact Hid|]. split; [exact Happ|].
  split.
  { intros j Hj. rewrite Hcall. cbn [fst].
    now rewrite nth_error_update_at_other. }
  destruct (legend_svg_shape stn scale type options (of_Z (offsetWidth e))
              (of_Z (offsetHeight e))) as [kids ->].
  repeat split.
Qed.

Lemma X3_witness :
  exists (e : element) (svg : node),
    appends_to chart_page 0 svg
      (colorlegend no_StringToNumber "#chart" abc_scale "ordinal" None
         chart_page) /\
    get_attr "width" svg = VNum (of_Z (offsetWidth e)) /\
    get_attr "height" svg = VNum (of_Z (offsetHeight e)).
Proof.
  destruct (X3_hash_target_appends_svg no_StringToNumber "chart" abc_scale
              "ordinal" None chart_page 0) as [e [svg H]].
  - reflexivity.
  - simpl. tauto.
  - reflexivity.
  - exists e, svg. tauto.
Defined.

Lemma lower_ascii_idem (c : ascii) : lower_ascii (lower_ascii c) = lower_ascii c.
Proof. destruct c as [[] [] [] [] [] [] [] []]; reflexivity. Qed.

Lemma to_lower_idem (s : string) : to_lower (to_lower s) = to_lower s.
Proof.
  induction s as [|c s IH]; simpl; [reflexivity|].
  now rewrite lower_ascii_idem, IH.
Qed.

Lemma css_name_not_hash (target : string) :
  css_name target = true -> js_substring 0 1 target <> "#"%string.
Proof.
  destruct target as [|c rest]; [discriminate|].
  unfold js_substring. cbn [Nat.sub substring css_name].
  replace (substring 0 0 rest) with ""%string by now destruct rest.
  intros Hc Heq. injection Heq as ->. discriminate.
Qed.

Lemma matches_bare (target : string) (e : element) :
  js_substring 0 1 target <> "#"%string ->
  matches target e = (localName e =? to_lower target)%string.
Proof.
  destruct target as [|c rest]; [reflexivity|].
  unfold js_substring. cbn [Nat.sub substring].
  replace (substring 0 0 rest) with ""%string by now destruct rest.
  intros Hc.
  destruct c as [[] [] [] [] [] [] [] []]; try reflexivity.
  now elim Hc.
Qed.

Lemma find_index_ext (p q : element -> bool) (doc : document) :
  (forall e, p e = q e) -> find_index p doc = find_index q doc.
Proof.
  intros H. induction doc as [|e doc IH]; simpl; [reflexivity|].
  now rewrite H, IH.
Qed.

Lemma find_index_none (p : element -> bool) (doc : document) :
  (forall e, In e doc -> p e = false) -> find_index p doc = None.
Proof.
  induction doc as [|e doc IH]; simpl; intros H; [reflexivity|].
  rewrite (H e) by now left. rewrite IH; [reflexivity|].
  intros e' He'. apply H. now right.
Qed.

(** X4: on a target that is a plain identifier written without [#] and the
    id of an element, when no element of the page has that name as its tag
    and no node appended to the page has it either, in any case of letters, a
    call with a supported type returns and leaves the document as it was:
    the size is read from the element with that id and nothing is drawn. *)
Theorem X4_bare_target (stn : string -> num) (target : string)
  (scale : Scale) (type : string) (options : option Options) (doc : document)
  (k : nat) :
  In type scaleTypes ->
  css_name target = true ->
  getElementById doc target = Some k ->
  (forall e : element, In e doc ->
     to_lower (localName e) <> to_lower target /\
     forall n : node, In n (childNodes e) -> has_tag target n = false) ->
  colorlegend stn target scale type options doc = (doc, Returned).
Proof.
  intros Hty Hname Hk Hnone.
  pose proof (css_name_not_hash target Hname) as Hbare.
  pose proof Hk as Hk'. unfold getElementById in Hk'.
  destruct (target =? "")%string; [discriminate|].
  destruct (find_index_sound _ _ _ Hk') as [e [He _]].
  unfold colorlegend. rewrite (found_scaleType _ Hty). cbn [negb].
  pose proof Hbare as Hb. apply String.eqb_neq in Hb. rewrite Hb, Hk, He.
  unfold d3_select.
  rewrite (find_index_ext (matches target)
             (fun e' => (localName e' =? to_lower target)%string))
    by (intros e'; now apply matches_bare).
  rewrite find_index_none; [reflexivity|].
  intros e' He'. apply String.eqb_neq. intros Heq.
  destruct (Hnone e' He') as [Hne _]. apply Hne.
  now rewrite Heq, to_lower_idem.
Qed.

Lemma X4_witness :
  colorlegend no_StringToNumber "chart" grey_scale "linear" None chart_page
  = (chart_page, Returned).
Proof.
  apply (X4_bare_target no_StringToNumber "chart" grey_scale "linear" None
           chart_page 0).
  - simpl. tauto.
  - reflexivity.
  - reflexivity.
  - intros e' [<- | []]. split; [discriminate|]. intros n [].
Defined.

(* ================================================================== *)
(** ** What the fitting guarantees *)

Lemma Zc_pos (n : Z) : (0 < n)%Z -> (0 < Zc n)%Qc.
Proof.
  intros Hn. unfold Qclt, Zc, Q2Qc. cbn [this].
  rewrite !Qred_correct. unfold Qlt. simpl. lia.
Qed.

Lemma num_ltb_Fin_true (a b : Qc) : (Fin a <? Fin b)%num = true -> (a < b)%Qc.
Proof.
  cbn [num_ltb]. intros H. apply Qclt_alt.
  now destruct (a ?= b)%Qc.
Qed.



(* ================================================================== *)
(** ** Where the labels are *)

Lemma num_add_0_r (x : num) : (x + of_Z 0)%num = x.
Proof.
  destruct x as [q| | |]; try reflexivity.
  unfold of_Z. cbn [num_add]. rewrite Zc_0. f_equal. ring.
Qed.

Lemma label_x type domain colors bw bh sp i :
  attr_num "x" (label type domain colors bw bh sp i)
  = (of_Z i * (bw + sp)
     + (if negb (type =? "ordinal")%string then bw / of_Z 2 else of_Z 0))%num.
Proof. reflexivity. Qed.

(** X7: every box is a [g] holding a [text] of class [colorlegend-labels]
    followed by a [rect]; the label sits at [y = boxHeight + 2] and takes no
    pointer events; on an ordinal legend the label starts at the left edge of
    its rectangle, on the other legends it is placed half a box width to the
    right of that edge, the middle of the rectangle. *)
Theorem X7_label_placement (stn : string -> num) (scale : Scale)
  (type : string) (options : option Options) (w h : num) (i : nat) :
  let svg := legend_svg stn scale type options w h in
  let boxWidth := effective_boxWidth stn scale type options w in
  let boxHeight := effective_boxHeight options h in
  let g := box svg i in
  (i < List.length (colors_in stn scale type options))%nat ->
  node_tag g = "g"%string /\
  node_children g = [box_label g; box_rect g] /\
  node_tag (box_label g) = "text"%string /\
  node_tag (box_rect g) = "rect"%string /\
  get_attr "class" (box_label g) = VStr "colorlegend-labels" /\
  get_attr "y" (box_label g) = VNum (boxHeight + of_Z 2)%num /\
  get_style "pointer-events" (box_label g) = VStr "none" /\
  (type = "ordinal"%string ->
   attr_num "x" (box_label g) = left_edge (box_rect g)) /\
  (type <> "ordinal"%string ->
   attr_num "x" (box_label g)
   = (left_edge (box_rect g) + boxWidth / of_Z 2)%num).
Proof.
  intros svg boxWidth boxHeight g Hi. subst g svg.
  pose proof (box_children stn scale type options w h i Hi) as Hkids.
  assert (Htag : node_tag (box (legend_svg stn scale type options w h) i)
                 = "g"%string).
  { unfold box. rewrite boxes_of_svg. unfold legendBoxes.
    set (f := fun k : nat => _).
    rewrite (nth_indep _ no_node (f O)) by now rewrite length_map, length_seq.
    now rewrite map_nth. }
  unfold box_label, box_rect. rewrite Hkids. cbn [nth].
  split; [exact Htag|]. split; [reflexivity|].
  split; [reflexivity|]. split; [reflexivity|].
  split; [reflexivity|]. split; [reflexivity|]. split; [reflexivity|].
  rewrite label_x, rect_left_edge. split.
  - intros ->. cbn [String.eqb Ascii.eqb Bool.eqb negb]. apply num_add_0_r.
  - intros Hty. apply String.eqb_neq in Hty. now rewrite Hty.
Qed.

Lemma X7_witness :
  let svg := legend_svg no_StringToNumber abc_scale "ordinal" None
               (of_Z 200) (of_Z 50) in
  attr_num "x" (box_label (box svg 2)) = left_edge (box_rect (box svg 2)).
Proof.
  apply (X7_label_placement no_StringToNumber abc_scale "ordinal" None
           (of_Z 200) (of_Z 50) 2).
  - simpl. lia.
  - reflexivity.
Defined.

(* ================================================================== *)
(** ** Linear legends as rendered *)

Lemma colors_linear (stn : string -> num) (scale : Scale)
  (options : option Options) :
  colors_in stn scale "linear" options =
  map (fun i =>
         call scale
           (VNum (of_nat i
                  * ((ToNumber stn (get (domain scale) (len (domain scale) - 1))
                      - ToNumber stn (get (domain scale) 0))
                     / of_Z (linearBoxes_of options)))%num))
      (seq 0 (Z.to_nat (linearBoxes_of options))).
Proof. reflexivity. Qed.

(** On a legend that is not ordinal only the two ends are labelled. *)
Lemma end_labels (stn : string -> num) (scale : Scale) (type : string)
  (options : option Options) (w h : num) :
  type <> "ordinal"%string ->
  let svg := legend_svg stn scale type options w h in
  let n := List.length (colors_in stn scale type options) in
  ((0 < n)%nat -> node_text (box_label (box svg 0)) = get (domain scale) 0) /\
  ((2 <= n)%nat ->
   node_text (box_label (box svg (n - 1)))
   = get (domain scale) (len (domain scale) - 1)) /\
  (forall i : nat, (0 < i < n - 1)%nat ->
     node_text (box_label (box svg i)) = VUndefined) /\
  (forall i : nat, (i < n)%nat ->
     get_style "text-anchor" (box_label (box svg i)) = VStr "middle").
Proof.
  intros Hty svg n. apply String.eqb_neq in Hty. subst svg.
  split; [|split; [|split]].
  - intros Hn. rewrite box_label_eq by exact Hn. rewrite label_text, Hty.
    reflexivity.
  - intros Hn. rewrite box_label_eq by (fold n; lia).
    rewrite label_text, Hty. unfold len at 1. fold n.
    destruct (Z.eqb_spec (Z.of_nat (n - 1)) 0); [lia|].
    destruct (Z.eqb_spec (Z.of_nat (n - 1)) (Z.of_nat n - 1)); [reflexivity|lia].
  - intros i Hi. rewrite box_label_eq by (fold n; lia).
    rewrite label_text, Hty. unfold len at 1. fold n.
    destruct (Z.eqb_spec (Z.of_nat i) 0); [lia|].
    destruct (Z.eqb_spec (Z.of_nat i) (Z.of_nat n - 1)); [lia|reflexivity].
  - intros i Hi. rewrite box_label_eq by exact Hi.
    rewrite label_anchor. now rewrite Hty.
Qed.

(** The legend a linear call builds. *)
Lemma linear_legend_svg (stn : string -> num) (scale : Scale)
  (options : option Options) (w h : num) :
  let svg := legend_svg stn scale "linear" options w h in
  let lb := linearBoxes_of options in
  let n := Z.to_nat lb in
  let min := ToNumber stn (get (domain scale) 0) in
  let max := ToNumber stn (get (domain scale) (len (domain scale) - 1)) in
  Z.of_nat (List.length (boxes_of svg)) = Z.max 0 lb /\
  (forall i : nat, (i < n)%nat ->
     get_style "fill" (box_rect (box svg i))
     = call scale (VNum (of_nat i * ((max - min) / of_Z lb))%num) /\
     get_style "text-anchor" (box_label (box svg i)) = VStr "middle" /\
     left_edge (box_rect (box svg i))
     = (of_Z (Z.of_nat i)
        * (attr_num "width" (box_rect (box svg i)) + of_Z 0))%num) /\
  ((0 < n)%nat -> node_text (box_label (box svg 0)) = get (domain scale) 0) /\
  ((2 <= n)%nat ->
   node_text (box_label (box svg (n - 1)))
   = get (domain scale) (len (domain scale) - 1)) /\
  (forall i : nat, (0 < i < n - 1)%nat ->
     node_text (box_label (box svg i)) = VUndefined).
Proof.
  intros svg lb n min max.
  assert (Hlen : List.length (colors_in stn scale "linear" options) = n).
  { rewrite colors_linear. now rewrite length_map, length_seq. }
  assert (Hty : "linear"%string <> "ordinal"%string) by discriminate.
  pose proof (end_labels stn scale "linear" options w h Hty)
    as [Hfirst [Hlast [Hmid Hanchor]]].
  rewrite Hlen in Hfirst, Hlast, Hmid, Hanchor.
  split; [|split; [|split; [|split]]]; try assumption.
  - subst svg. rewrite boxes_count, Hlen. subst n. lia.
  - intros i Hi. split; [|split; [now apply Hanchor|]].
    + subst svg. rewrite box_rect_eq by (rewrite Hlen; exact Hi).
      rewrite get_style_fill_rect, colors_linear.
      rewrite get_map_seq by (fold lb; fold n; lia). now rewrite Nat2Z.id.
    + subst svg. now rewrite box_rect_placement by (rewrite Hlen; exact Hi).
Qed.

(** X8: a linear call on a target [#name], where [name] is a plain
    identifier and the id of an element of the page, returns and appends to
    that element an [svg] with [max 0 linearBoxes] boxes; box [i] is filled
    with the scale applied to [i * ((max - min) / linearBoxes)] and its
    rectangle is placed at [i * (boxWidth + 0)]; the first box is labelled
    [domain[0]], the last one the last domain entry when there are at least
    two boxes, no box in between has label text, and the labels are anchored
    at "middle". *)
Theorem X8_linear_legend (stn : string -> num) (name : string)
  (scale : Scale) (options : option Options) (doc : document) (k : nat) :
  css_name name = true ->
  getElementById doc name = Some k ->
  exists svg : node,
    appends_to doc k svg
      (colorlegend stn ("#" ++ name) scale "linear" options doc) /\
    let lb := linearBoxes_of options in
    let n := Z.to_nat lb in
    let min := ToNumber stn (get (domain scale) 0) in
    let max := ToNumber stn (get (domain scale) (len (domain scale) - 1)) in
    Z.of_nat (List.length (boxes_of svg)) = Z.max 0 lb /\
    (forall i : nat, (i < n)%nat ->
       get_style "fill" (box_rect (box svg i))
       = call scale (VNum (of_nat i * ((max - min) / of_Z lb))%num) /\
       get_style "text-anchor" (box_label (box svg i)) = VStr "middle" /\
       left_edge (box_rect (box svg i))
       = (of_Z (Z.of_nat i)
          * (attr_num "width" (box_rect (box svg i)) + of_Z 0))%num) /\
    ((0 < n)%nat -> node_text (box_label (box svg 0)) = get (domain scale) 0) /\
    ((2 <= n)%nat ->
     node_text (box_label (box svg (n - 1)))
     = get (domain scale) (len (domain scale) - 1)) /\
    (forall i : nat, (0 < i < n - 1)%nat ->
       node_text (box_label (box svg i)) = VUndefined).
Proof.
  intros _ Hk.
  destruct (colorlegend_appends stn name scale "linear" options doc k)
    as [e [_ [_ Happ]]]; [simpl; tauto | exact Hk |].
  eexists. split; [exact Happ|].
  apply linear_legend_svg.
Qed.

Lemma X8_witness :
  exists svg : node,
    appends_to chart_page 0 svg
      (colorlegend no_StringToNumber "#chart" grey_scale "linear"
         (Some (with_linearBoxes (Some 4%Z) noOptions)) chart_page) /\
    get_style "fill" (box_rect (box svg 3))
    = VNum (of_nat 3 * ((of_Z 100 - of_Z 0) / of_Z 4))%num /\
    node_text (box_label (box svg 3)) = VNum (of_Z 100) /\
    node_text (box_label (box svg 1)) = VUndefined.
Proof.
  destruct (X8_linear_legend no_StringToNumber "chart" grey_scale
              (Some (with_linearBoxes (Some 4%Z) noOptions)) chart_page 0
              eq_refl eq_refl)
    as [svg [Happ [_ [Hfill [_ [Hlast Hmid]]]]]].
  exists svg. split; [exact Happ|]. split; [|split].
  - apply (Hfill 3%nat). simpl. lia.
  - apply Hlast. simpl. lia.
  - apply (Hmid 1%nat). simpl. lia.
Defined.

(* ================================================================== *)
(** ** What a call does not look at *)

Lemma colors_of_not_linear (stn1 stn2 : string -> num) (s1 s2 : Scale)
  (type : string) (lb1 lb2 : Z) :
  type <> "linear"%string ->
  domain s1 = domain s2 -> range s1 = range s2 ->
  colors_of stn1 s1 type lb1 = colors_of stn2 s2 type lb2.
Proof.
  intros Hty Hd Hr. apply String.eqb_neq in Hty.
  unfold colors_of. now rewrite Hty, Hd, Hr.
Qed.

(** X9: only a linear call applies the scale or reads [linearBoxes]: for any
    other type, two scales with the same domain and range give the same
    result whatever their functions and whatever the [linearBoxes] option. *)
Theorem X9_scale_applied_only_when_linear (stn1 stn2 : string -> num)
  (target : string) (s1 s2 : Scale) (type : string) (o : Options)
  (v1 v2 : option Z) (doc : document) :
  type <> "linear"%string ->
  domain s1 = domain s2 -> range s1 = range s2 ->
  colorlegend stn1 target s1 type (Some (with_linearBoxes v1 o)) doc
  = colorlegend stn2 target s2 type (Some (with_linearBoxes v2 o)) doc.
Proof.
  intros Hty Hd Hr. unfold colorlegend, legend_svg.
  rewrite (colors_of_not_linear stn1 stn2 s1 s2 type
             (linearBoxes_of (Some (with_linearBoxes v1 o)))
             (linearBoxes_of (Some (with_linearBoxes v2 o))) Hty Hd Hr).
  rewrite Hd. reflexivity.
Qed.

Lemma X9_witness :
  colorlegend no_StringToNumber "#chart" abc_scale "ordinal"
    (Some (with_linearBoxes (Some 4%Z) noOptions)) chart_page
  = colorlegend (fun _ => of_Z 1) "#chart"
      {| domain := domain abc_scale; range := range abc_scale;
         call := fun v => v |}
      "ordinal" (Some (with_linearBoxes None noOptions)) chart_page.
Proof.
  apply (X9_scale_applied_only_when_linear no_StringToNumber (fun _ => of_Z 1)
           "#chart" abc_scale
           {| domain := domain abc_scale; range := range abc_scale;
              call := fun v => v |}
           "ordinal" noOptions (Some 4%Z) None chart_page).
  - discriminate.
  - reflexivity.
  - reflexivity.
Defined.

(* ================================================================== *)
(** ** A legend without colours *)

Lemma title_x_not_finite (c : comparison) :
  (of_Z 0 * (inf_of_sign c / of_Z 2))%num = NaN.
Proof. now destruct c. Qed.

(** X10: when the colour list is empty (an empty quantile range, an empty
    ordinal domain, a negative [linearBoxes]) no box is drawn; with [fill]
    set on a target of finite width the fitted box width is then the result
    of a division by zero, not a finite number, and the [x] of the title
    label, when there is a title, is NaN. *)
Theorem X10_no_colours (stn : string -> num) (scale : Scale) (type : string)
  (options : option Options) (w h : Z) :
  let svg := legend_svg stn scale type options (of_Z w) (of_Z h) in
  colors_in stn scale type options = [] ->
  boxes_of svg = [] /\
  (fill_of options = true ->
   (forall q : Qc, effective_boxWidth stn scale type options (of_Z w) <> Fin q) /\
   (forall t : string, title_of options = Some t ->
      exists tl : node, titles_of svg = [tl] /\ get_attr "x" tl = VNum NaN)).
Proof.
  intros svg Hc. split.
  - subst svg. rewrite boxes_of_svg, Hc. reflexivity.
  - intros Hfill.
    assert (Hbw : exists c, effective_boxWidth stn scale type options (of_Z w)
                            = inf_of_sign c).
    { unfold effective_boxWidth, fit_width, requested_boxWidth.
      rewrite Hfill, Hc, boxSpacing_Fin. cbn [orb]. eexists. reflexivity. }
    destruct Hbw as [c Hbw]. split.
    + intros q. rewrite Hbw. now destruct c.
    + intros t Ht. subst svg. rewrite titles_of_svg, Ht.
      eexists. split; [reflexivity|].
      rewrite title_label_x, Hbw, Hc. cbn [len List.length Z.of_nat].
      now rewrite title_x_not_finite.
Qed.

Lemma X10_witness :
  let scale := {| domain := [VNum (of_Z 1); VNum (of_Z 2)]; range := [];
                  call := fun v => v |} in
  let options := Some (with_title (Some "Empty"%string)
                         (with_fill (Some true) noOptions)) in
  exists tl : node,
    titles_of (legend_svg no_StringToNumber scale "quantile" options
                 (of_Z 200) (of_Z 50)) = [tl] /\
    get_attr "x" tl = VNum NaN.
Proof.
  pose proof (X10_no_colours no_StringToNumber
                {| domain := [VNum (of_Z 1); VNum (of_Z 2)]; range := [];
                   call := fun v => v |}
                "quantile"
                (Some (with_title (Some "Empty"%string)
                         (with_fill (Some true) noOptions)))
                200 50 eq_refl) as [_ H].
  destruct (H eq_refl) as [_ Ht].
  apply (Ht "Empty"%string). reflexivity.
Defined.

(* ================================================================== *)
(** ** Ordinal legends and titles on a target [#name] *)

(** X11: an ordinal call on a target [#name], where [name] is a plain
    identifier and the id of an element of the page, returns and appends to
    that element an [svg] with one box per domain entry; box [i] is filled
    with [range[i]], its label reads [domain[i]] and is anchored at "start",
    and its rectangle is placed at [i * (boxWidth + 3)]. *)
Theorem X11_ordinal_call_renders (stn : string -> num) (name : string)
  (scale : Scale) (options : option Options) (doc : document) (k : nat) :
  css_name name = true ->
  getElementById doc name = Some k ->
  exists svg : node,
    appends_to doc k svg
      (colorlegend stn ("#" ++ name) scale "ordinal" options doc) /\
    List.length (boxes_of svg) = List.length (domain scale) /\
    forall i : nat, (i < List.length (domain scale))%nat ->
      get_style "fill" (box_rect (box svg i)) = get (range scale) (Z.of_nat i) /\
      node_text (box_label (box svg i)) = get (domain scale) (Z.of_nat i) /\
      get_style "text-anchor" (box_label (box svg i)) = VStr "start" /\
      left_edge (box_rect (box svg i))
      = (of_Z (Z.of_nat i)
         * (attr_num "width" (box_rect (box svg i)) + of_Z 3))%num.
Proof.
  intros _ Hk.
  destruct (colorlegend_appends stn name scale "ordinal" options doc k)
    as [e [_ [_ Happ]]]; [simpl; tauto | exact Hk |].
  eexists. split; [exact Happ|].
  apply ordinal_legend_svg.
Qed.

Lemma X11_witness :
  exists svg : node,
    appends_to chart_page 0 svg
      (colorlegend no_StringToNumber "#chart" abc_scale "ordinal" None
         chart_page) /\
    List.length (boxes_of svg) = 3%nat /\
    get_style "fill" (box_rect (box svg 1)) = VStr "green" /\
    node_text (box_label (box svg 1)) = VStr "B".
Proof.
  destruct (X11_ordinal_call_renders no_StringToNumber "chart" abc_scale None
              chart_page 0 eq_refl eq_refl) as [svg [Happ [Hlen Hbox]]].
  exists svg. split; [exact Happ|]. split; [exact Hlen|].
  destruct (Hbox 1%nat) as [Hfill [Htext _]]; [simpl; lia|].
  split; [exact Hfill | exact Htext].
Defined.

(** X12: on a target [#name], where [name] is a plain identifier and the id
    of an element of the page, a call with a supported type returns and
    appends an [svg] to that element.  When a title is set, the group of
    that [svg] holds the boxes followed by exactly one title label, a [text]
    at [x = colors.length * (boxWidth / 2)] and [y = boxHeight + 11],
    anchored at "middle", with pointer events off and the title as its text,
    and the title padding is 11; when no title is set, or it is the empty
    string, the group holds the boxes alone and the padding is 0. *)
Theorem X12_title_on_hash_target (stn : string -> num) (name : string)
  (scale : Scale) (type : string) (options : option Options) (doc : document)
  (k : nat) :
  css_name name = true ->
  In type scaleTypes ->
  getElementById doc name = Some k ->
  exists (e : element) (svg : node),
    nth_error doc k = Some e /\
    appends_to doc k svg
      (colorlegend stn ("#" ++ name) scale type options doc) /\
    let colors := colors_in stn scale type options in
    let boxWidth :=
      effective_boxWidth stn scale type options (of_Z (offsetWidth e)) in
    let boxHeight := effective_boxHeight options (of_Z (offsetHeight e)) in
    (forall t : string,
       title (or_empty options) = Some t -> t <> ""%string ->
       titlePadding (title_of options) = of_Z 11 /\
       exists tl : node,
         node_children (legend_group svg) = boxes_of svg ++ [tl] /\
         titles_of svg = [tl] /\
         node_tag tl = "text"%string /\
         get_attr "x" tl = VNum (of_Z (len colors) * (boxWidth / of_Z 2))%num /\
         get_attr "y" tl = VNum (boxHeight + of_Z 11)%num /\
         get_style "text-anchor" tl = VStr "middle" /\
         get_style "pointer-events" tl = VStr "none" /\
         node_text tl = VStr t) /\
    (title (or_empty options) = None
     \/ title (or_empty options) = Some ""%string ->
       titlePadding (title_of options) = of_Z 0 /\
       node_children (legend_group svg) = boxes_of svg /\
       titles_of svg = []).
Proof.
  intros _ Hty Hk.
  destruct (colorlegend_appends stn name scale type options doc k Hty Hk)
    as [e [He [_ Happ]]].
  exists e. eexists. split; [exact He|]. split; [exact Happ|].
  apply title_label_of_legend.
Qed.

Lemma X12_witness :
  exists (e : element) (svg tl : node),
    appends_to chart_page 0 svg
      (colorlegend no_StringToNumber "#chart" abc_scale "ordinal"
         (Some (with_title (Some "Population"%string) noOptions)) chart_page) /\
    titles_of svg = [tl] /\
    node_text tl = VStr "Population".
Proof.
  destruct (X12_title_on_hash_target no_StringToNumber "chart" abc_scale
              "ordinal" (Some (with_title (Some "Population"%string) noOptions))
              chart_page 0 eq_refl) as [e [svg [_ [Happ [Hset _]]]]].
  - simpl. tauto.
  - reflexivity.
  - destruct (Hset "Population"%string) as [_ [tl Htl]];
      [reflexivity | discriminate |].
    exists e, svg, tl. split; [exact Happ|]. tauto.
Defined.
